(** * piksi_tools console: OutputList and SettingsReport

    Shallow embedding of
    - [src/piksi_tools/console/output_list.py]: the log entries
      ([LogItem]) and the capped, filterable, pausable buffer
      ([OutputList]);
    - [src/piksi_tools/console/settings_report.py]: the conversion of
      a settings mapping to strings and its best-effort HTTP report.

    Python exceptions are the constructors of [py_error]; a method
    returns [Ok] with the new object state, or [Exc] with the exception
    it raises. *)

From Stdlib Require Import ZArith Bool List String Ascii Lia.
Import ListNotations.
Open Scope string_scope.
Open Scope Z_scope.

(** ** Exceptions and the error monad *)

Inductive py_error :=
| AssertionError
| IndexError
| TypeError
| KeyError
| AttributeError
| TraitError          (* a Traits trait refuses the assigned value *)
| UnicodeDecodeError  (* a byte string that is not valid UTF-8 *)
| ConnectionError.    (* any exception raised by [requests.post] *)

Inductive result (A : Type) :=
| Ok (a : A)
| Exc (e : py_error).
Arguments Ok {A} a.
Arguments Exc {A} e.

Definition bind {A B} (m : result A) (f : A -> result B) : result B :=
  match m with
  | Ok a => f a
  | Exc e => Exc e
  end.

Notation "x <- m ;; f" := (bind m (fun x => f))
  (at level 61, m at next level, right associativity).

(** ** Python strings *)

(** [str.isspace] of Python 2 on a byte string: non-empty and every
    byte is one of space, \t, \n, \v, \f, \r. *)
Definition is_space_char (c : ascii) : bool :=
  match nat_of_ascii c with
  | 32 | 9 | 10 | 11 | 12 | 13 => true
  | _ => false
  end%nat.

Fixpoint all_space (s : string) : bool :=
  match s with
  | EmptyString => true
  | String c r => is_space_char c && all_space r
  end.

Definition isspace (s : string) : bool :=
  match s with
  | EmptyString => false
  | _ => all_space s
  end.

(** The guard [s and not s.isspace()] of [write] and [write_level]. *)
Definition nonblank (s : string) : bool :=
  match s with
  | EmptyString => false
  | _ => negb (isspace s)
  end.

(** Decimal rendering of an integer, as [str] / [format] print it. *)
Fixpoint uint_to_string (d : Decimal.uint) : string :=
  match d with
  | Decimal.Nil => ""
  | Decimal.D0 r => String "0" (uint_to_string r)
  | Decimal.D1 r => String "1" (uint_to_string r)
  | Decimal.D2 r => String "2" (uint_to_string r)
  | Decimal.D3 r => String "3" (uint_to_string r)
  | Decimal.D4 r => String "4" (uint_to_string r)
  | Decimal.D5 r => String "5" (uint_to_string r)
  | Decimal.D6 r => String "6" (uint_to_string r)
  | Decimal.D7 r => String "7" (uint_to_string r)
  | Decimal.D8 r => String "8" (uint_to_string r)
  | Decimal.D9 r => String "9" (uint_to_string r)
  end.

Definition Z_to_string (z : Z) : string :=
  match Z.to_int z with
  | Decimal.Pos d => uint_to_string d
  | Decimal.Neg d => String "-" (uint_to_string d)
  end.

(** ** Log levels (module constants of output_list.py) *)

Definition LOG_EMERG : Z := 0.
Definition LOG_ALERT : Z := 1.
Definition LOG_CRIT : Z := 2.
Definition LOG_ERROR : Z := 3.
Definition LOG_WARN : Z := 4.
Definition LOG_NOTICE : Z := 5.
Definition LOG_INFO : Z := 6.
Definition LOG_DEBUG : Z := 7.

Definition CONSOLE_LOG_LEVEL : Z := -1.
Definition DEFAULT_LOG_LEVEL : Z := -2.

(** The keys of [SYSLOG_LEVELS], in the dict's iteration order; the
    [Enum] trait [log_level_filter] accepts exactly these values and
    defaults to the first one. *)
Definition SYSLOG_LEVELS : list (Z * string) :=
  [(LOG_ERROR, "ERROR"); (LOG_WARN, "WARNING"); (LOG_INFO, "INFO");
   (LOG_DEBUG, "DEBUG")].

Definition SYSLOG_LEVEL_KEYS : list Z := map fst SYSLOG_LEVELS.

Definition DEFAULT_MAX_LEN : Z := 250.

(** ** LogItem *)

(** The timestamp is [time.strftime(...)] at construction; the model
    takes the current time string as the argument [now]. *)
Record LogItem := mkLogItem {
  log_level : Z;
  timestamp : string;
  msg : string
}.

(** [LogItem(msg, level)] *)
Definition new_LogItem (now : string) (msg : string) (level : Z) : LogItem :=
  {| log_level := level; timestamp := now; msg := msg |}.

Definition matches_log_level_filter (item : LogItem) (lvl : Z) : bool :=
  (log_level item <=? lvl)%Z.

(** ["{0},{1},{2}\n".format(timestamp, log_level, msg)] *)
Definition print_to_log (item : LogItem) : string :=
  timestamp item ++ "," ++ Z_to_string (log_level item) ++ "," ++ msg item
  ++ String (ascii_of_nat 10) "".

(** [str.lower] of Python 2 on a byte string: A-Z become a-z. *)
Definition ascii_lower (c : ascii) : ascii :=
  let n := nat_of_ascii c in
  if (Nat.leb 65 n && Nat.leb n 90)%bool then ascii_of_nat (n + 32) else c.

Fixpoint lower (s : string) : string :=
  match s with
  | EmptyString => EmptyString
  | String c r => String (ascii_lower c) (lower r)
  end.

(** [UNMASKABLE_LEVELS] and [ALL_LOG_LEVELS = SYSLOG_LEVELS.copy()]
    updated with [UNMASKABLE_LEVELS]. *)
Definition UNMASKABLE_LEVELS : list (Z * string) := [(CONSOLE_LOG_LEVEL, "CONSOLE")].

Definition ALL_LOG_LEVELS : list (Z * string) := SYSLOG_LEVELS ++ UNMASKABLE_LEVELS.

(** [SYSLOG_LEVELS_INVERSE]: [value.lower()] mapped to [key]. *)
Definition SYSLOG_LEVELS_INVERSE : list (string * Z) :=
  map (fun kv => (lower (snd kv), fst kv)) SYSLOG_LEVELS.

(** [str_to_log_level(level_str)] *)
Definition str_to_log_level (level_str : string) : Z :=
  match find (fun kv => String.eqb (fst kv) (lower level_str)) SYSLOG_LEVELS_INVERSE with
  | Some kv => snd kv
  | None => DEFAULT_LOG_LEVEL
  end.

(** The [log_level_str] property of a [LogItem]:
    [ALL_LOG_LEVELS.get(self.log_level, "UNKNOWN")]. *)
Definition log_level_str (item : LogItem) : string :=
  match find (fun kv => (fst kv =? log_level item)%Z) ALL_LOG_LEVELS with
  | Some kv => snd kv
  | None => "UNKNOWN"
  end.

(** ** OutputList *)

(** The traits of an [OutputList].  [max_len] is [Trait(250, None, Int)]:
    [None] or an integer.  [logfile] is the sequence of strings written
    to the log file (meaningful only when [tfile] is set).  A [List]
    trait copies the list it is assigned, so the buffers never alias
    each other. *)
Record OutputList := mkOutputList {
  unfiltered_list : list LogItem;
  _paused_buffer : list LogItem;
  filtered_list : list LogItem;
  log_level_filter : Z;
  max_len : option Z;
  paused : bool;
  tfile : bool;
  logfile : list string
}.

(** A fresh [OutputList(tfile)] whose [max_len] was configured to [m]. *)
Definition init_OutputList (m : Z) (tf : bool) : OutputList :=
  {| unfiltered_list := []; _paused_buffer := []; filtered_list := [];
     log_level_filter := LOG_ERROR; max_len := Some m; paused := false;
     tfile := tf; logfile := [] |}.

Definition set_unfiltered (st : OutputList) (l : list LogItem) : OutputList :=
  {| unfiltered_list := l; _paused_buffer := _paused_buffer st;
     filtered_list := filtered_list st; log_level_filter := log_level_filter st;
     max_len := max_len st; paused := paused st; tfile := tfile st;
     logfile := logfile st |}.

Definition set_paused_buffer (st : OutputList) (l : list LogItem) : OutputList :=
  {| unfiltered_list := unfiltered_list st; _paused_buffer := l;
     filtered_list := filtered_list st; log_level_filter := log_level_filter st;
     max_len := max_len st; paused := paused st; tfile := tfile st;
     logfile := logfile st |}.

Definition set_filtered (st : OutputList) (l : list LogItem) : OutputList :=
  {| unfiltered_list := unfiltered_list st; _paused_buffer := _paused_buffer st;
     filtered_list := l; log_level_filter := log_level_filter st;
     max_len := max_len st; paused := paused st; tfile := tfile st;
     logfile := logfile st |}.

Definition set_filter_value (st : OutputList) (t : Z) : OutputList :=
  {| unfiltered_list := unfiltered_list st; _paused_buffer := _paused_buffer st;
     filtered_list := filtered_list st; log_level_filter := t;
     max_len := max_len st; paused := paused st; tfile := tfile st;
     logfile := logfile st |}.

Definition set_paused_flag (st : OutputList) (b : bool) : OutputList :=
  {| unfiltered_list := unfiltered_list st; _paused_buffer := _paused_buffer st;
     filtered_list := filtered_list st; log_level_filter := log_level_filter st;
     max_len := max_len st; paused := b; tfile := tfile st;
     logfile := logfile st |}.

Definition log_line (st : OutputList) (line : string) : OutputList :=
  {| unfiltered_list := unfiltered_list st; _paused_buffer := _paused_buffer st;
     filtered_list := filtered_list st; log_level_filter := log_level_filter st;
     max_len := max_len st; paused := paused st; tfile := tfile st;
     logfile := logfile st ++ [line] |}.

(** [list.pop()]: removes the last element, [IndexError] when empty. *)
Definition list_pop {A} (l : list A) : result (list A) :=
  match l with
  | [] => Exc IndexError
  | _ => Ok (removelast l)
  end.

(** [append_truncate].  With [max_len = None], [len(buffer) > None] is
    true in Python 2 and [len(buffer) - None] raises [TypeError]
    (Python 3 raises it at the comparison already). *)
Definition append_truncate (max_len : option Z) (buffer : list LogItem)
    (s : LogItem) : result (list LogItem) :=
  match max_len with
  | None => Exc TypeError
  | Some m =>
      if m <? Z.of_nat (List.length buffer) then
        if Z.of_nat (List.length buffer) - m =? 1 then
          b <- list_pop buffer ;; Ok (s :: b)
        else Exc AssertionError
      else Ok (s :: buffer)
  end.

(** The part shared by [write] and [write_level]: the insertion of the
    new item into the paused buffer, or into the live buffer and (when
    it passes the filter) the filtered view. *)
Definition insert_item (st : OutputList) (log : LogItem) : result OutputList :=
  if paused st then
    pb <- append_truncate (max_len st) (_paused_buffer st) log ;;
    Ok (set_paused_buffer st pb)
  else
    u <- append_truncate (max_len st) (unfiltered_list st) log ;;
    let st1 := set_unfiltered st u in
    if matches_log_level_filter log (log_level_filter st1) then
      f <- append_truncate (max_len st1) (filtered_list st1) log ;;
      Ok (set_filtered st1 f)
    else Ok st1.

(** [OutputList.write(s)] *)
Definition write (now : string) (st : OutputList) (s : string)
    : result OutputList :=
  if nonblank s then
    let log := new_LogItem now s CONSOLE_LOG_LEVEL in
    st1 <- insert_item st log ;;
    if tfile st1 then Ok (log_line st1 (print_to_log log)) else Ok st1
  else Ok st.

(** [OutputList.write_level(s, level)]: no write to the log file. *)
Definition write_level (now : string) (st : OutputList) (s : string)
    (level : Z) : result OutputList :=
  if nonblank s then
    let log := new_LogItem now s level in
    insert_item st log
  else Ok st.

(** [OutputList.clear()] *)
Definition clear (st : OutputList) : OutputList :=
  set_unfiltered (set_filtered (set_paused_buffer st []) []) [].

(** [_log_level_filter_changed] *)
Definition _log_level_filter_changed (st : OutputList) : OutputList :=
  set_filtered st
    (filter (fun item => matches_log_level_filter item (log_level_filter st))
       (unfiltered_list st)).

(** [_paused_changed], run after [paused] took its new value. *)
Definition _paused_changed (st : OutputList) : OutputList :=
  if paused st then set_paused_buffer st (unfiltered_list st)
  else
    let st1 := set_unfiltered st (_paused_buffer st) in
    let st2 := _log_level_filter_changed st1 in
    set_paused_buffer st2 [].

(** Assigning [log_level_filter]: the [Enum] trait validates the value,
    and Traits calls the [_changed] handler only when the value differs
    from the old one. *)
Definition set_log_level_filter (st : OutputList) (t : Z) : result OutputList :=
  if existsb (Z.eqb t) SYSLOG_LEVEL_KEYS then
    if t =? log_level_filter st then Ok st
    else Ok (_log_level_filter_changed (set_filter_value st t))
  else Exc TraitError.

(** Assigning [paused]; the handler runs only on a change of value. *)
Definition set_paused (st : OutputList) (b : bool) : OutputList :=
  if Bool.eqb b (paused st) then st
  else _paused_changed (set_paused_flag st b).

(** A sequence of appends through [write_level] (one [(now, s, level)]
    triple per call), stopping at the first exception. *)
Fixpoint write_levels (st : OutputList) (calls : list (string * string * Z))
    : result OutputList :=
  match calls with
  | [] => Ok st
  | (now, s, level) :: rest =>
      st1 <- write_level now st s level ;; write_levels st1 rest
  end.

(** States of an [OutputList] configured with [max_len = m], reached
    through its public operations.  A call that raises is not followed
    further: from the states below no call raises at all when [m >= 0]
    (theorem [C3_amended]). *)
Inductive reachable (m : Z) : OutputList -> Prop :=
| reach_init tf : reachable m (init_OutputList m tf)
| reach_write st now s st' :
    reachable m st -> write now st s = Ok st' -> reachable m st'
| reach_write_level st now s level st' :
    reachable m st -> write_level now st s level = Ok st' -> reachable m st'
| reach_clear st : reachable m st -> reachable m (clear st)
| reach_filter st t st' :
    reachable m st -> set_log_level_filter st t = Ok st' -> reachable m st'
| reach_paused st b : reachable m st -> reachable m (set_paused st b).

(** The state an operation leaves, or [d] if it raised. *)
Definition ok_or {A} (r : result A) (d : A) : A :=
  match r with Ok x => x | Exc _ => d end.

(** ** SettingsReport (settings_report.py) *)

(** The Python values a settings mapping is made of.  A dict is an
    association list in iteration order, with distinct keys. *)
#[local] Set Warnings "-register-all".
Inductive pyval :=
| PNone
| PBool (b : bool)
| PInt (z : Z)       (* a Python [int] *)
| PLong (z : Z)      (* a Python [long] *)
| PStr (s : string)
| PList (l : list pyval)
| PDict (kvs : list (pyval * pyval)).

(** Induction on [pyval] through list elements and dict values. *)
Section pyval_induction.
Variable P : pyval -> Prop.
Hypothesis HNone : P PNone.
Hypothesis HBool : forall b, P (PBool b).
Hypothesis HInt : forall z, P (PInt z).
Hypothesis HLong : forall z, P (PLong z).
Hypothesis HStr : forall s, P (PStr s).
Hypothesis HList : forall l, Forall P l -> P (PList l).
Hypothesis HDict : forall kvs, Forall (fun kv => P (snd kv)) kvs -> P (PDict kvs).

Fixpoint pyval_ind_deep (v : pyval) : P v :=
  match v with
  | PNone => HNone
  | PBool b => HBool b
  | PInt z => HInt z
  | PLong z => HLong z
  | PStr s => HStr s
  | PList l =>
      HList l ((fix go (l : list pyval) : Forall P l :=
                  match l with
                  | [] => Forall_nil P
                  | x :: r => Forall_cons x (pyval_ind_deep x) (go r)
                  end) l)
  | PDict kvs =>
      HDict kvs ((fix go (kvs : list (pyval * pyval))
                    : Forall (fun kv => P (snd kv)) kvs :=
                    match kvs with
                    | [] => Forall_nil _
                    | (k, x) :: r => Forall_cons (k, x) (pyval_ind_deep x) (go r)
                    end) kvs)
  end.
End pyval_induction.

Fixpoint join (sep : string) (l : list string) : string :=
  match l with
  | [] => ""
  | [x] => x
  | x :: r => x ++ sep ++ join sep r
  end.

(** Python 2 [repr] of a byte string ([PyString_Repr], smart quotes):
    double quotes when the string holds a single quote and no double
    quote, single quotes otherwise; the quote and the backslash are
    escaped, tab, newline and carriage return are written [\t], [\n],
    [\r], and every other byte below 32 or from 127 on as [\xhh]. *)
Definition backslash : ascii := ascii_of_nat 92.
Definition squote : ascii := ascii_of_nat 39.
Definition dquote : ascii := ascii_of_nat 34.

Definition hex_digit (n : nat) : ascii :=
  ascii_of_nat (if Nat.ltb n 10 then 48 + n else 87 + n).

Fixpoint str_has (c : ascii) (s : string) : bool :=
  match s with
  | EmptyString => false
  | String c' r => Ascii.eqb c c' || str_has c r
  end.

Definition repr_quote (s : string) : ascii :=
  if str_has squote s && negb (str_has dquote s) then dquote else squote.

Fixpoint repr_escape (q : ascii) (s : string) : string :=
  match s with
  | EmptyString => EmptyString
  | String c r =>
      let n := nat_of_ascii c in
      let e :=
        if Ascii.eqb c q || Ascii.eqb c backslash then
          String backslash (String c EmptyString)
        else if Nat.eqb n 9 then String backslash "t"
        else if Nat.eqb n 10 then String backslash "n"
        else if Nat.eqb n 13 then String backslash "r"
        else if Nat.ltb n 32 || Nat.leb 127 n then
          String backslash (String "x" (String (hex_digit (Nat.div n 16))
            (String (hex_digit (Nat.modulo n 16)) EmptyString)))
        else String c EmptyString in
      e ++ repr_escape q r
  end.

Definition str_repr (s : string) : string :=
  let q := repr_quote s in
  String q (repr_escape q s ++ String q EmptyString).

(** [repr(v)]; a dict is shown in its iteration order. *)
Fixpoint py_repr (v : pyval) : string :=
  match v with
  | PNone => "None"
  | PBool true => "True"
  | PBool false => "False"
  | PInt z => Z_to_string z
  | PLong z => Z_to_string z ++ "L"
  | PStr s => str_repr s
  | PList l => "[" ++ join ", " (map py_repr l) ++ "]"
  | PDict kvs =>
      "{" ++ join ", " (map (fun kv => py_repr (fst kv) ++ ": " ++ py_repr (snd kv)) kvs)
      ++ "}"
  end.

(** [str(v)] *)
Definition py_str (v : pyval) : string :=
  match v with
  | PStr s => s
  | PLong z => Z_to_string z
  | _ => py_repr v
  end.

Definition is_str (v : pyval) : bool :=
  match v with PStr _ => true | _ => false end.

Definition is_dict (v : pyval) : bool :=
  match v with PDict _ => true | _ => false end.

(** A dict key equal to the string [k] (only a string equals a string). *)
Definition key_is (k : string) (key : pyval) : bool :=
  match key with PStr k' => String.eqb k k' | _ => false end.

(** [d[k]] for a string [k]. *)
Definition getitem (d : pyval) (k : string) : result pyval :=
  match d with
  | PDict kvs =>
      match find (fun kv => key_is k (fst kv)) kvs with
      | Some kv => Ok (snd kv)
      | None => Exc KeyError
      end
  | _ => Exc TypeError
  end.

(** [converted[k] = v] for a string key [k]. *)
Fixpoint dict_set_str (d : list (pyval * pyval)) (k : string) (v : pyval)
    : list (pyval * pyval) :=
  match d with
  | [] => [(PStr k, v)]
  | (k', v') :: r =>
      if key_is k k' then (k', v) :: r else (k', v') :: dict_set_str r k v
  end.

(** The loop of [dict_values_to_strings] over [d.iteritems()], with
    [converted] built so far; [conv] is the recursive call. *)
Fixpoint convert_items (conv : pyval -> result pyval)
    (kvs : list (pyval * pyval)) (converted : list (pyval * pyval))
    : result pyval :=
  match kvs with
  | [] => Ok (PDict converted)
  | (k, v) :: rest =>
      match k with
      | PStr ks =>
          match v with
          | PDict _ =>
              c <- conv v ;; convert_items conv rest (dict_set_str converted ks c)
          | _ => convert_items conv rest (dict_set_str converted ks (PStr (py_str v)))
          end
      | _ => Exc TypeError
      end
  end.

(** [dict_values_to_strings(d)]; a [d] without [iteritems] raises
    [AttributeError]. *)
Fixpoint dict_values_to_strings (d : pyval) : result pyval :=
  match d with
  | PDict kvs => convert_items dict_values_to_strings kvs []
  | _ => Exc AttributeError
  end.

(** What the reporter does that the caller can observe. *)
Inductive event :=
| Print (s : string)
| Post (url : string) (body : pyval).   (* [requests.post], fixed headers *)

(** The outcome of the HTTP request: a status code, or an exception. *)
Inductive net_response :=
| Responds (status : Z)
| Raises.

Definition REPORT_URL : string :=
  "https://w096929iy3.execute-api.us-east-1.amazonaws.com/prof/catchConsole".

(** ** [json.dumps] (Python 2) *)

Definition byte_in (c : ascii) (lo hi : nat) : bool :=
  Nat.leb lo (nat_of_ascii c) && Nat.leb (nat_of_ascii c) hi.

(** Python 2.7's strict UTF-8 decoder ([PyUnicode_DecodeUTF8Stateful]):
    lead bytes C2-DF, E0-EF and F0-F4 start sequences of 2, 3 and 4
    bytes; after E0 the second byte is at least A0, after F0 at least
    90, after F4 at most 8F; other bytes are continuation bytes 80-BF.
    Encoded surrogates (ED A0-BF ..) are accepted, as in Python 2. *)
Fixpoint utf8_valid (s : string) : bool :=
  match s with
  | EmptyString => true
  | String c r =>
      let n := nat_of_ascii c in
      if Nat.ltb n 128 then utf8_valid r
      else if Nat.leb 194 n && Nat.leb n 223 then
        match r with
        | String c1 r1 => byte_in c1 128 191 && utf8_valid r1
        | _ => false
        end
      else if Nat.leb 224 n && Nat.leb n 239 then
        match r with
        | String c1 (String c2 r2) =>
            byte_in c1 (if Nat.eqb n 224 then 160 else 128) 191 &&
            byte_in c2 128 191 && utf8_valid r2
        | _ => false
        end
      else if Nat.leb 240 n && Nat.leb n 244 then
        match r with
        | String c1 (String c2 (String c3 r3)) =>
            byte_in c1 (if Nat.eqb n 240 then 144 else 128)
                       (if Nat.eqb n 244 then 143 else 191) &&
            byte_in c2 128 191 && byte_in c3 128 191 && utf8_valid r3
        | _ => false
        end
      else false
  end.

(** A byte string is encoded through [str.decode('utf-8')]. *)
Definition json_str (s : string) : result unit :=
  if utf8_valid s then Ok tt else Exc UnicodeDecodeError.

(** A dict key: strings are encoded, numbers, booleans and [None] are
    turned into strings, anything else is refused ([skipkeys=False]). *)
Definition json_key (k : pyval) : result unit :=
  match k with
  | PStr s => json_str s
  | PNone | PBool _ | PInt _ | PLong _ => Ok tt
  | _ => Exc TypeError
  end.

(** The exception, if any, that [json.dumps(v)] raises; the encoder
    walks lists in order and, in a dict, each key before its value. *)
Fixpoint json_dumps_check (v : pyval) : result unit :=
  match v with
  | PStr s => json_str s
  | PList l =>
      (fix go (l : list pyval) : result unit :=
         match l with
         | [] => Ok tt
         | x :: r => _ <- json_dumps_check x ;; go r
         end) l
  | PDict kvs =>
      (fix go (kvs : list (pyval * pyval)) : result unit :=
         match kvs with
         | [] => Ok tt
         | (k, x) :: r => _ <- json_key k ;; _ <- json_dumps_check x ;; go r
         end) kvs
  | _ => Ok tt
  end.

(** [post_data(uuid, data)]; the body is the JSON of [(uuid, data)],
    computed before the request is made. *)
Definition post_data (net : net_response) (uuid data : pyval)
    : list event * result unit :=
  if negb (is_str uuid) then ([Print "post data: uuid is not a string"], Ok tt)
  else if negb (is_dict data) then ([Print "post data: data is not a dict"], Ok tt)
  else
    match json_dumps_check (PList [uuid; data]) with
    | Exc e => ([], Exc e)
    | Ok _ =>
    let ev := Post REPORT_URL (PList [uuid; data]) in
    match net with
    | Raises => ([ev], Exc ConnectionError)
    | Responds code =>
        if code =? 200 then ([ev], Ok tt)
        else ([ev; Print "post data: failed to post data"], Ok tt)
    end
    end.

(** The [try] body of [report_settings], after its first print. *)
Definition report_body (net : net_response) (settings : pyval)
    : list event * result unit :=
  match (si <- getitem settings "system_info" ;; getitem si "uuid") with
  | Exc e => ([], Exc e)
  | Ok u =>
      let uuid := PStr (py_str u) in
      match dict_values_to_strings settings with
      | Exc e => ([], Exc e)
      | Ok data =>
          let (tr, r) := post_data net uuid data in
          match r with
          | Exc e => (tr, Exc e)
          | Ok _ => (app tr [Print "reported settings"], Ok tt)
          end
      end
  end.

(** [SettingsReport(settings).report_settings()]: the bare [except]
    catches every exception of the body. *)
Definition report_settings (net : net_response) (settings : pyval)
    : list event * result unit :=
  let (tr, r) := report_body net settings in
  match r with
  | Ok _ => (Print "reporting settings" :: tr, Ok tt)
  | Exc _ =>
      (Print "reporting settings" ::
         app tr [Print "report settings: failed to report settings"], Ok tt)
  end.

(** No HTTP request in a trace. *)
Definition no_network (tr : list event) : bool :=
  forallb (fun ev => match ev with Post _ _ => false | _ => true end) tr.

(** The HTTP requests of a trace. *)
Definition posts (tr : list event) : list event :=
  filter (fun ev => match ev with Post _ _ => true | _ => false end) tr.

(** Spec-side notions for [dict_values_to_strings]. *)

(** Every key is a string, in the dict and in the dicts among its values,
    at every depth. *)
Fixpoint all_keys_str (v : pyval) : bool :=
  match v with
  | PDict kvs => forallb (fun kv => is_str (fst kv) && all_keys_str (snd kv)) kvs
  | _ => true
  end.

Fixpoint nodup_strings (l : list string) : bool :=
  match l with
  | [] => true
  | x :: r => negb (existsb (String.eqb x) r) && nodup_strings r
  end.

Definition key_names (kvs : list (pyval * pyval)) : list string :=
  flat_map (fun kv => match fst kv with PStr s => [s] | _ => [] end) kvs.

(** The string keys of the dict and of the dicts among its values are
    distinct, as the keys of a Python dict are. *)
Fixpoint dict_wf (v : pyval) : bool :=
  match v with
  | PDict kvs => nodup_strings (key_names kvs) && forallb (fun kv => dict_wf (snd kv)) kvs
  | _ => true
  end.

(** The conversion as the spec describes it: same keys, nested mappings
    converted recursively, every other value replaced by its string. *)
Fixpoint to_strings_spec (v : pyval) : pyval :=
  match v with
  | PDict kvs => PDict (map (fun kv => (fst kv, to_strings_spec (snd kv))) kvs)
  | _ => PStr (py_str v)
  end.

(** Only strings, and mappings with string keys of such values. *)
Fixpoint only_strings (v : pyval) : bool :=
  match v with
  | PStr _ => true
  | PDict kvs => forallb (fun kv => is_str (fst kv) && only_strings (snd kv)) kvs
  | _ => false
  end.

Definition dict_keys (v : pyval) : list pyval :=
  match v with PDict kvs => map fst kvs | _ => [] end.

(** ** Lines of text in the log file *)

Definition newline : string := String (ascii_of_nat 10) "".

Fixpoint count_newlines (s : string) : nat :=
  match s with
  | EmptyString => 0
  | String c r =>
      (if Ascii.eqb c (ascii_of_nat 10) then 1 else 0) + count_newlines r
  end%nat.

Fixpoint last_char (s : string) : option ascii :=
  match s with
  | EmptyString => None
  | String c EmptyString => Some c
  | String _ r => last_char r
  end.

(** A text that is exactly one line: one newline, at its end. *)
Definition is_one_line (s : string) : bool :=
  Nat.eqb (count_newlines s) 1 &&
  match last_char s with
  | Some c => Ascii.eqb c (ascii_of_nat 10)
  | None => false
  end.

(** ** Proofs about OutputList *)

Definition len_ok (m : Z) (l : list LogItem) : Prop :=
  Z.of_nat (List.length l) <= m + 1.

(** The invariant of reachable states. *)
Definition inv (m : Z) (st : OutputList) : Prop :=
  max_len st = Some m /\
  len_ok m (unfiltered_list st) /\
  len_ok m (_paused_buffer st) /\
  len_ok m (filtered_list st) /\
  In (log_level_filter st) SYSLOG_LEVEL_KEYS.

Example nonblank_examples :
  nonblank "" = false /\ nonblank "  " = false /\ nonblank " a " = true.
Proof. repeat split; reflexivity. Qed.

Example Z_to_string_examples :
  Z_to_string (-1) = "-1" /\ Z_to_string 0 = "0" /\ Z_to_string 250 = "250".
Proof. repeat split; reflexivity. Qed.

(** Below the bound, [append_truncate] keeps the newest [m + 1] items. *)
Lemma append_truncate_bounded m b x :
  0 <= m -> len_ok m b ->
  append_truncate (Some m) b x = Ok (firstn (S (Z.to_nat m)) (x :: b)).
Proof.
  unfold len_ok, append_truncate. intros Hm Hb.
  destruct (Z.ltb_spec m (Z.of_nat (List.length b))) as [Hlt | Hge].
  - assert (Hlen : List.length b = S (Z.to_nat m)) by lia.
    replace (Z.of_nat (List.length b) - m =? 1) with true
      by (symmetry; apply Z.eqb_eq; lia).
    destruct b as [| y b']; [simpl in Hlen; discriminate |].
    cbn [list_pop bind]. f_equal.
    rewrite removelast_firstn_len, Hlen. reflexivity.
  - cbn [firstn]. rewrite firstn_all2 by lia. reflexivity.
Qed.

Lemma len_ok_firstn m l :
  0 <= m -> len_ok m (firstn (S (Z.to_nat m)) l).
Proof.
  unfold len_ok. intros Hm. pose proof (firstn_le_length (S (Z.to_nat m)) l). lia.
Qed.

Lemma len_ok_filter m f l : len_ok m l -> len_ok m (filter f l).
Proof.
  unfold len_ok. intros H. pose proof (filter_length_le f l). lia.
Qed.

Lemma len_ok_nil m : 0 <= m -> len_ok m [].
Proof. unfold len_ok. simpl. lia. Qed.

(** [insert_item] in a state satisfying the invariant. *)
Lemma insert_item_eq m st log :
  0 <= m -> inv m st ->
  insert_item st log =
  Ok (if paused st then
        set_paused_buffer st (firstn (S (Z.to_nat m)) (log :: _paused_buffer st))
      else
        let st1 := set_unfiltered st
                     (firstn (S (Z.to_nat m)) (log :: unfiltered_list st)) in
        if matches_log_level_filter log (log_level_filter st) then
          set_filtered st1 (firstn (S (Z.to_nat m)) (log :: filtered_list st))
        else st1).
Proof.
  intros Hm (Hmax & Hu & Hp & Hf & _). unfold insert_item. rewrite Hmax.
  destruct (paused st).
  - rewrite append_truncate_bounded by assumption. reflexivity.
  - rewrite append_truncate_bounded by assumption. cbn [bind].
    cbn [log_level_filter max_len filtered_list set_unfiltered].
    destruct (matches_log_level_filter log (log_level_filter st)); [|reflexivity].
    rewrite Hmax, append_truncate_bounded by assumption. reflexivity.
Qed.

Lemma insert_item_inv m st log :
  0 <= m -> inv m st -> exists st', insert_item st log = Ok st' /\ inv m st'.
Proof.
  intros Hm Hinv. rewrite (insert_item_eq m) by assumption.
  eexists; split; [reflexivity|].
  destruct Hinv as (Hmax & Hu & Hp & Hf & Ht).
  destruct (paused st); [|destruct (matches_log_level_filter _ _)];
    repeat split; cbn [set_paused_buffer set_unfiltered set_filtered
      max_len unfiltered_list _paused_buffer filtered_list log_level_filter];
    auto using len_ok_firstn.
Qed.

Lemma write_inv m st now s :
  0 <= m -> inv m st -> exists st', write now st s = Ok st' /\ inv m st'.
Proof.
  intros Hm Hinv. unfold write. destruct (nonblank s); [|eauto].
  destruct (insert_item_inv m st (new_LogItem now s CONSOLE_LOG_LEVEL) Hm Hinv)
    as (st1 & -> & Hinv1).
  cbn [bind]. destruct (tfile st1); eexists; split; try reflexivity; auto.
Qed.

Lemma write_level_inv m st now s level :
  0 <= m -> inv m st ->
  exists st', write_level now st s level = Ok st' /\ inv m st'.
Proof.
  intros Hm Hinv. unfold write_level. destruct (nonblank s); [|eauto].
  apply insert_item_inv; assumption.
Qed.

Lemma clear_inv m st : 0 <= m -> inv m st -> inv m (clear st).
Proof.
  intros Hm (Hmax & _ & _ & _ & Ht). repeat split; simpl; auto using len_ok_nil.
Qed.

Lemma set_log_level_filter_inv m st t st' :
  inv m st -> set_log_level_filter st t = Ok st' -> inv m st'.
Proof.
  intros Hinv. unfold set_log_level_filter.
  destruct (existsb (Z.eqb t) SYSLOG_LEVEL_KEYS) eqn:Hin; [|discriminate].
  destruct (t =? log_level_filter st); intros H; injection H as <-; [assumption|].
  destruct Hinv as (Hmax & Hu & Hp & Hf & Ht).
  apply existsb_exists in Hin as (t' & Hin' & Heq). apply Z.eqb_eq in Heq. subst t'.
  repeat split; simpl; auto using len_ok_filter.
Qed.

Lemma set_paused_inv m st b : inv m st -> inv m (set_paused st b).
Proof.
  intros Hinv. unfold set_paused. destruct (Bool.eqb b (paused st)); [assumption|].
  destruct Hinv as (Hmax & Hu & Hp & Hf & Ht).
  unfold _paused_changed, _log_level_filter_changed.
  destruct b; cbn [set_paused_buffer set_unfiltered set_filtered set_paused_flag
      paused max_len unfiltered_list _paused_buffer filtered_list log_level_filter];
    repeat split; auto using len_ok_filter.
  - unfold len_ok in *. simpl. lia.
  - apply len_ok_filter; assumption.
Qed.

Lemma reachable_inv m st : 0 <= m -> reachable m st -> inv m st.
Proof.
  intros Hm Hr. induction Hr as [tf | st now s st' _ IH Hw | st now s level st' _ IH Hw
                                 | st _ IH | st t st' _ IH Ht | st b _ IH].
  - repeat split; simpl; auto using len_ok_nil.
  - destruct (write_inv m st now s Hm IH) as (st1 & Heq & Hi). congruence.
  - destruct (write_level_inv m st now s level Hm IH) as (st1 & Heq & Hi). congruence.
  - apply clear_inv; assumption.
  - eapply set_log_level_filter_inv; eassumption.
  - apply set_paused_inv; assumption.
Qed.

Lemma count_newlines_app a b :
  count_newlines (a ++ b) = (count_newlines a + count_newlines b)%nat.
Proof. induction a as [| c a IH]; simpl; [reflexivity|]. rewrite IH. lia. Qed.

Lemma string_append_assoc a b c : (a ++ b) ++ c = a ++ (b ++ c).
Proof. induction a as [| x a IH]; simpl; [reflexivity|]. rewrite IH. reflexivity. Qed.

Lemma last_char_app_newline a : last_char (a ++ newline) = Some (ascii_of_nat 10).
Proof.
  induction a as [| c a IH]; [reflexivity|].
  cbn [append last_char]. destruct (a ++ newline) eqn:E.
  - destruct a; discriminate.
  - exact IH.
Qed.

Lemma firstn_app_firstn {A} n (l m : list A) :
  firstn n (l ++ firstn n m) = firstn n (l ++ m).
Proof.
  rewrite !firstn_app, firstn_firstn. f_equal. f_equal. lia.
Qed.

(** Writes while paused only extend the paused buffer. *)
Lemma write_levels_paused m st calls :
  0 <= m -> inv m st -> paused st = true ->
  forallb (fun '(_, s, _) => nonblank s) calls = true ->
  write_levels st calls =
  Ok (set_paused_buffer st
        (firstn (S (Z.to_nat m))
           (rev (map (fun '(now, s, l) => new_LogItem now s l) calls)
            ++ _paused_buffer st))).
Proof.
  intros Hm. revert st. induction calls as [| [[now s] l] rest IH];
    intros st Hinv Hp Hnb.
  - cbn [write_levels map rev app]. destruct Hinv as (_ & _ & Hpb & _).
    unfold len_ok in Hpb. rewrite firstn_all2 by lia. destruct st; reflexivity.
  - cbn [forallb] in Hnb. apply andb_prop in Hnb as [Hs Hnb].
    cbn [write_levels]. unfold write_level. rewrite Hs.
    rewrite (insert_item_eq m) by assumption. rewrite Hp. cbn [bind].
    rewrite IH; cycle 1.
    + destruct Hinv as (? & ? & ? & ? & ?). repeat split; try assumption.
      apply len_ok_firstn; assumption.
    + exact Hp.
    + exact Hnb.
    + cbn [map rev]. rewrite <- app_assoc. cbn [app].
      cbn [set_paused_buffer _paused_buffer]. rewrite firstn_app_firstn.
      reflexivity.
Qed.

(** Pausing, appending through [write_level], and resuming: the live
    buffer becomes the new items, newest first, in front of the old
    live buffer, cut to [max_len + 1] items; the paused buffer is empty
    and the filtered view is rebuilt from the live buffer. *)
Lemma pause_resume_prepends m st calls :
  0 <= m -> inv m st -> paused st = false ->
  forallb (fun '(_, s, _) => nonblank s) calls = true ->
  exists st2, write_levels (set_paused st true) calls = Ok st2 /\
  unfiltered_list (set_paused st2 false) =
    firstn (S (Z.to_nat m))
      (rev (map (fun '(now, s, l) => new_LogItem now s l) calls)
       ++ unfiltered_list st) /\
  _paused_buffer (set_paused st2 false) = [] /\
  filtered_list (set_paused st2 false) =
    filter (fun e => matches_log_level_filter e
                       (log_level_filter (set_paused st2 false)))
      (unfiltered_list (set_paused st2 false)).
Proof.
  intros Hm Hinv Hp Hnb.
  assert (Hinv1 : inv m (set_paused st true)) by (apply set_paused_inv; assumption).
  assert (Hp1 : paused (set_paused st true) = true).
  { unfold set_paused. rewrite Hp. reflexivity. }
  rewrite (write_levels_paused m) by assumption.
  eexists; split; [reflexivity|].
  assert (Hu1 : _paused_buffer (set_paused st true) = unfiltered_list st).
  { unfold set_paused. rewrite Hp. reflexivity. }
  rewrite Hu1. generalize dependent (set_paused st true). intros st1 _ Hp1 _.
  unfold set_paused. cbn [set_paused_buffer paused]. rewrite Hp1. cbn [Bool.eqb].
  repeat split; reflexivity.
Qed.

Lemma reachable_write_levels m st calls st' :
  reachable m st -> write_levels st calls = Ok st' -> reachable m st'.
Proof.
  revert st. induction calls as [| [[now s] l] rest IH]; intros st Hr Hw.
  - injection Hw as <-. exact Hr.
  - cbn [write_levels] in Hw.
    destruct (write_level now st s l) as [st1 |] eqn:E; [|discriminate].
    apply (IH st1); [|exact Hw]. exact (reach_write_level m st now s l st1 Hr E).
Qed.



(** ** Claims about OutputList *)

(** C1 (code defect): with [max_len = 1], two writes leave two entries
    in the live buffer.  [append_truncate] evicts only when the buffer
    already holds more than [max_len] items, so it inserts into a buffer
    of [max_len] items and the live buffer settles at [max_len + 1]
    items, against its docstring ("keeping overall size less than
    max_len") and the comment on [max_len] ("The maximum allowed
    length"). *)
Lemma C1_live_buffer_exceeds_max_len :
  match (st1 <- write "t" (init_OutputList 1 false) "a" ;;
         write "t" st1 "b") with
  | Ok st => max_len st = Some 1 /\
             Z.of_nat (List.length (unfiltered_list st)) = 2 /\
             map msg (unfiltered_list st) = ["b"; "a"]
  | Exc _ => False
  end.
Proof. vm_compute. repeat split. Qed.

(** C2: right after a change of the filter threshold, and right after
    [paused] goes from [True] to [False], the filtered view is exactly
    the entries of the live buffer whose level is at most the current
    threshold, in the live buffer's order. *)
Theorem C2_filtered_view_after_rebuild :
  (forall st t st',
     set_log_level_filter st t = Ok st' -> t <> log_level_filter st ->
     log_level_filter st' = t /\
     filtered_list st' =
       filter (fun e => (log_level e <=? t)%Z) (unfiltered_list st')) /\
  (forall st,
     paused st = true ->
     filtered_list (set_paused st false) =
       filter (fun e => (log_level e <=? log_level_filter (set_paused st false))%Z)
         (unfiltered_list (set_paused st false))).
Proof.
  split.
  - intros st t st'. unfold set_log_level_filter.
    destruct (existsb (Z.eqb t) SYSLOG_LEVEL_KEYS); [|discriminate].
    destruct (Z.eqb_spec t (log_level_filter st)) as [Heq | _];
      intros H Hne; [contradiction|].
    injection H as <-. split; reflexivity.
  - intros st Hp. unfold set_paused. rewrite Hp. reflexivity.
Qed.

(** Raising the threshold to WARNING over three entries, then a pause,
    a write while paused and the resume. *)
Lemma C2_filtered_view_after_rebuild_witness :
  let st := ok_or (write_levels (init_OutputList 250 false)
              [("t1", "boot", LOG_INFO); ("t2", "fix lost", LOG_WARN);
               ("t3", "no fix", LOG_ERROR); ("t4", "tick", LOG_DEBUG)])
              (init_OutputList 250 false) in
  let st' := ok_or (set_log_level_filter st LOG_WARN) st in
  let sp := ok_or (write_level "t5" (set_paused st' true) "held" LOG_ERROR)
              (set_paused st' true) in
  (set_log_level_filter st LOG_WARN = Ok st' /\
   LOG_WARN <> log_level_filter st /\
   log_level_filter st' = LOG_WARN /\
   filtered_list st' = filter (fun e => (log_level e <=? LOG_WARN)%Z) (unfiltered_list st') /\
   map msg (unfiltered_list st') = ["tick"; "no fix"; "fix lost"; "boot"] /\
   map msg (filtered_list st') = ["no fix"; "fix lost"]) /\
  (paused sp = true /\
   filtered_list (set_paused sp false) =
     filter (fun e => (log_level e <=? log_level_filter (set_paused sp false))%Z)
       (unfiltered_list (set_paused sp false)) /\
   map msg (filtered_list (set_paused sp false)) = ["held"; "no fix"; "fix lost"]).
Proof.
  intros st st' sp.
  assert (H1 : set_log_level_filter st LOG_WARN = Ok st') by reflexivity.
  assert (H2 : LOG_WARN <> log_level_filter st) by (vm_compute; discriminate).
  assert (Hp : paused sp = true) by reflexivity.
  destruct (proj1 C2_filtered_view_after_rebuild st LOG_WARN st' H1 H2) as [Ht Hf].
  pose proof (proj2 C2_filtered_view_after_rebuild sp Hp) as Hr.
  split.
  - split; [exact H1|]. split; [exact H2|]. split; [exact Ht|]. split; [exact Hf|].
    split; reflexivity.
  - split; [exact Hp|]. split; [exact Hr|]. reflexivity.
Defined.




(** C4 (code defect, the one of C1): with [max_len = 1], after writes
    of "a" and "b", a pause, a write of "c" and the resume, the live
    buffer holds two entries, "c" then "b"; a cap of [max_len] keeps
    only "c".  Apart from the cap, [pause_resume_prepends] shows the
    live buffer, paused buffer and filtered view are as claimed. *)
Lemma C4_resume_exceeds_max_len :
  match (st1 <- write_level "t" (init_OutputList 1 false) "a" LOG_ERROR ;;
         st2 <- write_level "t" st1 "b" LOG_ERROR ;;
         st3 <- write_level "t" (set_paused st2 true) "c" LOG_ERROR ;;
         Ok (set_paused st3 false)) with
  | Ok st => map msg (unfiltered_list st) = ["c"; "b"] /\
             _paused_buffer st = [] /\
             firstn 1 ["c"; "b"; "a"] = ["c"]
  | Exc _ => False
  end.
Proof. vm_compute. repeat split. Qed.

(** C5: a write of an empty or all-whitespace string, through [write]
    or [write_level], leaves the whole object (all three buffers and
    the log file) unchanged. *)
Theorem C5_blank_write_is_noop now st s level :
  s = EmptyString \/ isspace s = true ->
  write now st s = Ok st /\ write_level now st s level = Ok st.
Proof.
  intros Hs.
  assert (Hnb : nonblank s = false).
  { destruct Hs as [-> | Hsp]; [reflexivity|].
    destruct s as [| c r]; [reflexivity|]. unfold nonblank. rewrite Hsp. reflexivity. }
  unfold write, write_level. rewrite Hnb. split; reflexivity.
Qed.

Lemma C5_blank_write_is_noop_witness :
  (" " = EmptyString \/ isspace " " = true) /\
  write "t" (init_OutputList 250 true) " " = Ok (init_OutputList 250 true) /\
  write_level "t" (init_OutputList 250 true) " " LOG_WARN =
    Ok (init_OutputList 250 true).
Proof.
  assert (H : " " = EmptyString \/ isspace " " = true) by (right; reflexivity).
  split; [exact H|].
  exact (C5_blank_write_is_noop "t" (init_OutputList 250 true) " " LOG_WARN H).
Defined.

(** C8, as claimed, fails: a message with an embedded newline, written
    through [write] with the log file enabled, gives a record of two
    lines. *)
Lemma C8_multiline_record :
  match write "t" (init_OutputList 250 true)
          (String "a" (String (ascii_of_nat 10) (String "b" EmptyString))) with
  | Ok st => logfile st =
               [String "t" (String "," (String "-" (String "1" (String ","
                  (String "a" (String (ascii_of_nat 10) (String "b"
                     newline)))))))] /\
             map is_one_line (logfile st) = [false]
  | Exc _ => False
  end.
Proof. vm_compute. split; reflexivity. Qed.

(** C8 (amended): with the log file enabled, a non-blank message [s]
    written through [write], paused or not, appends exactly one record
    [timestamp,-1,s] followed by a newline to the log file; when the
    timestamp has no newline, the record is a single line exactly when
    [s] has none. *)
Theorem C8_amended now st s st' :
  tfile st = true -> nonblank s = true -> write now st s = Ok st' ->
  logfile st' = app (logfile st) [now ++ "," ++ "-1" ++ "," ++ s ++ newline] /\
  (count_newlines now = 0%nat ->
   (is_one_line (now ++ "," ++ "-1" ++ "," ++ s ++ newline) = true <->
    count_newlines s = 0%nat)).
Proof.
  intros Htf Hnb Hw. split.
  - unfold write in Hw. rewrite Hnb in Hw.
    destruct (insert_item st (new_LogItem now s CONSOLE_LOG_LEVEL)) as [st1 |] eqn:Hi;
      [|discriminate].
    cbn [bind] in Hw.
    assert (Hlog : logfile st1 = logfile st /\ tfile st1 = tfile st).
    { unfold insert_item in Hi. destruct (paused st).
      - destruct (append_truncate _ _ _); inversion Hi; subst; split; reflexivity.
      - destruct (append_truncate _ _ _); [|discriminate]. cbn [bind] in Hi.
        destruct (matches_log_level_filter _ _).
        + destruct (append_truncate _ _ _); inversion Hi; subst; split; reflexivity.
        + inversion Hi; subst; split; reflexivity. }
    destruct Hlog as [Hlf Htf1]. rewrite Htf1, Htf in Hw.
    injection Hw as <-. cbn [logfile log_line]. rewrite Hlf. reflexivity.
  - intros Hnow. unfold is_one_line.
    rewrite !count_newlines_app, Hnow.
    replace (now ++ "," ++ "-1" ++ "," ++ s ++ newline)
      with ((now ++ "," ++ "-1" ++ "," ++ s) ++ newline)
      by (rewrite !string_append_assoc; reflexivity).
    rewrite last_char_app_newline. cbn.
    destruct (count_newlines s); cbn; split; intros H; try reflexivity;
      try discriminate.
    rewrite Nat.add_comm in H. discriminate.
Qed.

Lemma C8_amended_witness :
  tfile (init_OutputList 250 true) = true /\ nonblank "hi" = true /\
  match write "t" (init_OutputList 250 true) "hi" with
  | Ok st' => logfile st' = app [] ["t" ++ "," ++ "-1" ++ "," ++ "hi" ++ newline]
  | Exc _ => False
  end.
Proof.
  assert (H1 : tfile (init_OutputList 250 true) = true) by reflexivity.
  assert (H2 : nonblank "hi" = true) by reflexivity.
  split; [exact H1|]. split; [exact H2|].
  destruct (write "t" (init_OutputList 250 true) "hi") as [st' | e] eqn:H3.
  - exact (proj1 (C8_amended "t" _ "hi" _ H1 H2 H3)).
  - vm_compute in H3. discriminate H3.
Defined.

(** C9: from empty, unpaused buffers with the threshold at [LOG_ERROR],
    [write_level("hello", LOG_WARN)] then [write_level("world",
    LOG_ERROR)] leaves exactly the "world" entry in the filtered view,
    for every non-negative [max_len]. *)
Theorem C9_hello_world_filtered m tf lf now1 now2 :
  0 <= m ->
  exists st,
    (st1 <- write_level now1
              {| unfiltered_list := []; _paused_buffer := [];
                 filtered_list := []; log_level_filter := LOG_ERROR;
                 max_len := Some m; paused := false; tfile := tf;
                 logfile := lf |}
              "hello" LOG_WARN ;;
     write_level now2 st1 "world" LOG_ERROR) = Ok st /\
    filtered_list st = [new_LogItem now2 "world" LOG_ERROR].
Proof.
  intros Hm.
  match goal with |- context [write_level now1 ?st0 _ _] => set (s0 := st0) end.
  assert (H0 : inv m s0).
  { repeat split; cbn; auto using len_ok_nil. }
  unfold write_level at 1. cbn [nonblank isspace all_space is_space_char].
  replace (negb _) with true by reflexivity.
  rewrite (insert_item_eq m) by assumption. cbn [bind].
  set (s1 := if paused s0 then _ else _).
  assert (H1 : inv m s1).
  { subst s1 s0. cbn. repeat split; cbn; auto using len_ok_nil, len_ok_firstn.
    unfold len_ok. rewrite firstn_nil. cbn. lia. }
  unfold write_level. replace (nonblank "world") with true by reflexivity.
  rewrite (insert_item_eq m) by assumption.
  eexists; split; [reflexivity|].
  subst s1 s0. cbn. rewrite firstn_nil. reflexivity.
Qed.

Lemma C9_hello_world_filtered_witness :
  0 <= DEFAULT_MAX_LEN /\
  exists st,
    (st1 <- write_level "t1" (init_OutputList DEFAULT_MAX_LEN false)
              "hello" LOG_WARN ;;
     write_level "t2" st1 "world" LOG_ERROR) = Ok st /\
    filtered_list st = [new_LogItem "t2" "world" LOG_ERROR].
Proof.
  assert (Hm : 0 <= DEFAULT_MAX_LEN) by (unfold DEFAULT_MAX_LEN; lia).
  split; [exact Hm|].
  exact (C9_hello_world_filtered DEFAULT_MAX_LEN false [] "t1" "t2" Hm).
Defined.

(** C10: console entries are unmaskable.  An entry of level
    [CONSOLE_LOG_LEVEL] passes every threshold the filter can take (the
    keys of [SYSLOG_LEVELS]), and in every reachable state with a
    non-negative [max_len], a non-blank [write] while unpaused puts its
    entry at the front of the filtered view. *)
Theorem C10_console_unmaskable :
  (forall now s t, In t SYSLOG_LEVEL_KEYS ->
     matches_log_level_filter (new_LogItem now s CONSOLE_LOG_LEVEL) t = true) /\
  (forall m st now s,
     0 <= m -> reachable m st -> paused st = false -> nonblank s = true ->
     exists st' rest, write now st s = Ok st' /\
       filtered_list st' = new_LogItem now s CONSOLE_LOG_LEVEL :: rest).
Proof.
  assert (Hpass : forall now s t, In t SYSLOG_LEVEL_KEYS ->
     matches_log_level_filter (new_LogItem now s CONSOLE_LOG_LEVEL) t = true).
  { intros now s t Ht. cbn in Ht.
    unfold matches_log_level_filter, CONSOLE_LOG_LEVEL. cbn [log_level new_LogItem].
    apply Z.leb_le.
    unfold LOG_ERROR, LOG_WARN, LOG_INFO, LOG_DEBUG in Ht. lia. }
  split; [exact Hpass|].
  intros m st now s Hm Hr Hp Hnb.
  pose proof (reachable_inv m st Hm Hr) as Hinv.
  unfold write. rewrite Hnb. rewrite (insert_item_eq m) by assumption.
  rewrite Hp. cbn [bind].
  rewrite Hpass by (destruct Hinv as (_ & _ & _ & _ & Ht); exact Ht).
  cbn [set_filtered set_unfiltered tfile].
  destruct (tfile st); (eexists; exists (firstn (Z.to_nat m) (filtered_list st));
    split; [reflexivity | reflexivity]).
Qed.

Lemma C10_console_unmaskable_witness :
  matches_log_level_filter (new_LogItem "t" "x" CONSOLE_LOG_LEVEL) LOG_ERROR = true /\
  exists st' rest, write "t" (init_OutputList 250 false) "x" = Ok st' /\
    filtered_list st' = new_LogItem "t" "x" CONSOLE_LOG_LEVEL :: rest.
Proof.
  split.
  - apply (proj1 C10_console_unmaskable). left. reflexivity.
  - apply (proj2 C10_console_unmaskable 250); [lia | constructor | reflexivity | reflexivity].
Defined.

(** ** Proofs about SettingsReport *)

(** [repr] as Python 2 prints it: a string holding a single quote and
    no double quote is shown in double quotes, other strings in single
    quotes with the quote escaped; a newline is shown as backslash-n
    and the byte FF as backslash-xff; a long carries its [L] only in
    [repr]. *)
Example py_repr_examples :
  py_repr (PStr "it's") = String dquote ("it's" ++ String dquote EmptyString) /\
  py_repr (PStr (String "a" (String dquote "b"))) =
    String squote (String "a" (String dquote (String "b" (String squote EmptyString)))) /\
  py_repr (PStr (String "x" (String (ascii_of_nat 10) (String (ascii_of_nat 255) EmptyString)))) =
    String squote ("x" ++ String backslash "n" ++ String backslash "xff" ++
                   String squote EmptyString) /\
  py_repr (PStr (String squote (String dquote EmptyString))) =
    String squote (String backslash (String squote (String dquote (String squote EmptyString)))) /\
  py_repr (PList [PLong 3; PInt (-2); PNone]) = "[3L, -2, None]" /\
  py_str (PLong 3) = "3".
Proof. repeat split; reflexivity. Qed.

(** The Python 2.7 UTF-8 decoder: accepts 'é' (C3 A9), a 4-byte
    sequence (F0 9F 98 80) and an encoded surrogate (ED A0 80); refuses
    a lone continuation byte, the overlong C0 80 and E0 80 80, F4 90 ..
    (beyond U+10FFFF), F5, and a truncated sequence. *)
Example utf8_valid_examples :
  let b := fun (l : list nat) => fold_right (fun n s => String (ascii_of_nat n) s) EmptyString l in
  utf8_valid (b [195%nat; 169%nat]) = true /\ utf8_valid (b [240%nat; 159%nat; 152%nat; 128%nat]) = true /\
  utf8_valid (b [237%nat; 160%nat; 128%nat]) = true /\ utf8_valid (b [128%nat]) = false /\
  utf8_valid (b [192%nat; 128%nat]) = false /\ utf8_valid (b [224%nat; 128%nat; 128%nat]) = false /\
  utf8_valid (b [244%nat; 144%nat; 128%nat; 128%nat]) = false /\ utf8_valid (b [245%nat; 128%nat; 128%nat; 128%nat]) = false /\
  utf8_valid (b [226%nat; 130%nat]) = false.
Proof. repeat split; reflexivity. Qed.

Example dict_values_to_strings_example :
  dict_values_to_strings
    (PDict [(PStr "a", PInt 1); (PStr "b", PDict [(PStr "c", PBool true)])]) =
  Ok (PDict [(PStr "a", PStr "1"); (PStr "b", PDict [(PStr "c", PStr "True")])]).
Proof. reflexivity. Qed.

Example report_settings_example :
  report_settings (Responds 200)
    (PDict [(PStr "system_info", PDict [(PStr "uuid", PStr "u1")])]) =
  ([Print "reporting settings";
    Post REPORT_URL (PList [PStr "u1";
      PDict [(PStr "system_info", PDict [(PStr "uuid", PStr "u1")])]]);
    Print "reported settings"], Ok tt).
Proof. reflexivity. Qed.

Lemma dict_set_str_fresh d k v :
  existsb (String.eqb k) (key_names d) = false ->
  forallb (fun kv => is_str (fst kv)) d = true ->
  dict_set_str d k v = app d [(PStr k, v)].
Proof.
  induction d as [| [k' v'] r IH]; intros Hfresh Hstr; [reflexivity|].
  cbn in Hstr. destruct k' as [| | | | s' | |]; try discriminate.
  cbn in Hfresh. apply orb_false_iff in Hfresh as [Hk Hfresh].
  cbn [dict_set_str key_is]. rewrite Hk. cbn. rewrite IH; auto.
Qed.

Lemma key_names_app d e : key_names (app d e) = app (key_names d) (key_names e).
Proof. unfold key_names. apply flat_map_app. Qed.

(** The value converted for a key of the loop: a dict through the
    recursive call, anything else through [str]. *)
Definition converts_to_spec (v : pyval) : Prop :=
  all_keys_str v = true -> dict_wf v = true -> is_dict v = true ->
  dict_values_to_strings v = Ok (to_strings_spec v).

Lemma convert_items_spec kvs acc :
  Forall (fun kv => converts_to_spec (snd kv)) kvs ->
  forallb (fun kv => is_str (fst kv) && all_keys_str (snd kv)) kvs = true ->
  forallb (fun kv => dict_wf (snd kv)) kvs = true ->
  nodup_strings (key_names kvs) = true ->
  forallb (fun kv => is_str (fst kv)) acc = true ->
  (forall k, In k (key_names kvs) -> existsb (String.eqb k) (key_names acc) = false) ->
  convert_items dict_values_to_strings kvs acc =
  Ok (PDict (app acc (map (fun kv => (fst kv, to_strings_spec (snd kv))) kvs))).
Proof.
  revert acc. induction kvs as [| [k v] rest IH];
    intros acc Hconv Hkeys Hwf Hnd Hacc Hfresh.
  - cbn. rewrite app_nil_r. reflexivity.
  - inversion Hconv as [| ? ? Hv Hconv_rest]; subst.
    cbn [forallb fst snd] in Hkeys, Hwf.
    apply andb_prop in Hkeys as [Hkv Hkeys]. apply andb_prop in Hkv as [Hk Hakv].
    apply andb_prop in Hwf as [Hwfv Hwf].
    destruct k as [| | | | ks | |]; try discriminate.
    change (key_names ((PStr ks, v) :: rest)) with (ks :: key_names rest) in Hnd, Hfresh.
    cbn [nodup_strings] in Hnd.
    apply andb_prop in Hnd as [Hks Hnd]. apply negb_true_iff in Hks.
    assert (Hfr : existsb (String.eqb ks) (key_names acc) = false)
      by (apply Hfresh; left; reflexivity).
    assert (Hstep : forall c,
      convert_items dict_values_to_strings rest (dict_set_str acc ks c) =
      Ok (PDict (app acc ((PStr ks, c) ::
                   map (fun kv => (fst kv, to_strings_spec (snd kv))) rest)))).
    { intros c. rewrite dict_set_str_fresh by assumption. rewrite IH; try assumption.
      - rewrite <- app_assoc. reflexivity.
      - rewrite forallb_app, Hacc. reflexivity.
      - intros k' Hin. rewrite key_names_app, existsb_app, Hfresh by (right; exact Hin).
        cbn. rewrite orb_false_r.
        destruct (String.eqb_spec k' ks) as [-> | Hne]; [|reflexivity].
        exfalso. assert (Hx : existsb (String.eqb ks) (key_names rest) = true)
          by (apply existsb_exists; exists ks; split; [exact Hin | apply String.eqb_refl]).
        congruence. }
    cbn [convert_items map fst snd].
    destruct v as [| | | | | | kvs'];
      try (rewrite Hstep; reflexivity).
    rewrite Hv by assumption. cbn [bind]. rewrite Hstep. reflexivity.
Qed.

Lemma dict_values_to_strings_spec v : converts_to_spec v.
Proof.
  induction v as [| | | | | l _ | kvs IH] using pyval_ind_deep;
    unfold converts_to_spec; intros Hk Hwf Hd; try discriminate.
  cbn [dict_values_to_strings to_strings_spec].
  cbn [all_keys_str dict_wf] in Hk, Hwf. apply andb_prop in Hwf as [Hnd Hwf].
  rewrite convert_items_spec; try assumption; reflexivity.
Qed.

Lemma dict_values_to_strings_total v :
  is_dict v = true ->
  (all_keys_str v = true -> exists r, dict_values_to_strings v = Ok r) /\
  (all_keys_str v = false -> dict_values_to_strings v = Exc TypeError).
Proof.
  induction v as [| | | | | l _ | kvs IH] using pyval_ind_deep; intros Hd;
    try discriminate.
  clear Hd. cbn [dict_values_to_strings all_keys_str]. generalize (@nil (pyval * pyval)).
  induction kvs as [| [k v] rest IHrest]; intros acc.
  - split; intros H; [exists (PDict acc); reflexivity | discriminate H].
  - inversion IH as [| ? ? Hv Hrest]; subst. specialize (IHrest Hrest).
    cbn [forallb fst snd convert_items].
    destruct k as [| | | | ks | |]; cbn [is_str andb];
      try (split; [discriminate | reflexivity]).
    destruct v as [| | | | | | kvs']; try apply IHrest.
    destruct (Hv eq_refl) as [Hok Hexc]. cbn [snd] in Hok, Hexc.
    destruct (all_keys_str (PDict kvs')) eqn:E.
    + destruct (Hok eq_refl) as [c ->]. cbn [bind]. apply IHrest.
    + rewrite (Hexc eq_refl). split; [discriminate | reflexivity].
Qed.

Lemma to_strings_spec_only_strings v :
  all_keys_str v = true -> only_strings (to_strings_spec v) = true.
Proof.
  induction v as [| | | | | l _ | kvs IH] using pyval_ind_deep; intros Hk;
    try reflexivity.
  cbn [to_strings_spec only_strings all_keys_str] in *.
  induction kvs as [| [k v] rest IHrest]; [reflexivity|].
  inversion IH as [| ? ? Hv Hrest]; subst.
  cbn [forallb map fst snd] in *. apply andb_prop in Hk as [Hkv Hk].
  apply andb_prop in Hkv as [Hks Hkv].
  rewrite Hks, (Hv Hkv), (IHrest Hrest Hk). reflexivity.
Qed.

(** ** Claims about SettingsReport *)

(** C6: [report_settings] never lets an exception reach its caller,
    whatever the settings and whatever the HTTP request does;
    [post_data] given a non-string uuid or a non-dict payload returns
    normally without any HTTP request; and [report_settings] on an empty
    mapping makes no HTTP request (the lookup of ['system_info'] raises
    [KeyError], which is caught). *)
Theorem C6_report_settings_never_raises :
  (forall net settings, snd (report_settings net settings) = Ok tt) /\
  (forall net uuid data,
     is_str uuid = false \/ is_dict data = false ->
     no_network (fst (post_data net uuid data)) = true /\
     snd (post_data net uuid data) = Ok tt) /\
  (forall net, no_network (fst (report_settings net (PDict []))) = true).
Proof.
  split; [|split].
  - intros net settings. unfold report_settings.
    destruct (report_body net settings) as [tr [u | e]]; reflexivity.
  - intros net uuid data [H | H]; unfold post_data; rewrite H; [split; reflexivity|].
    destruct (is_str uuid); split; reflexivity.
  - intros net. reflexivity.
Qed.

Lemma C6_report_settings_never_raises_witness :
  (is_str (PInt 42) = false \/ is_dict (PDict []) = false) /\
  no_network (fst (post_data Raises (PInt 42) (PDict []))) = true /\
  snd (post_data Raises (PInt 42) (PDict [])) = Ok tt.
Proof.
  assert (H : is_str (PInt 42) = false \/ is_dict (PDict []) = false)
    by (left; reflexivity).
  split; [exact H|].
  exact (proj1 (proj2 C6_report_settings_never_raises) Raises _ _ H).
Defined.

(** C7: on a mapping whose keys are strings at every depth (and, as in
    any Python dict, distinct), [dict_values_to_strings] returns the
    mapping with the same keys, nested mappings converted recursively
    and every other value replaced by its [str], so only strings and
    mappings of strings remain; if some key at some depth is not a
    string, it raises [TypeError]. *)
Theorem C7_dict_values_to_strings :
  (forall d,
     is_dict d = true -> all_keys_str d = true -> dict_wf d = true ->
     dict_values_to_strings d = Ok (to_strings_spec d) /\
     dict_keys (to_strings_spec d) = dict_keys d /\
     only_strings (to_strings_spec d) = true) /\
  (forall d,
     is_dict d = true -> all_keys_str d = false ->
     dict_values_to_strings d = Exc TypeError).
Proof.
  split.
  - intros d Hd Hk Hwf. split; [|split].
    + apply dict_values_to_strings_spec; assumption.
    + destruct d as [| | | | | | kvs]; try discriminate.
      cbn [to_strings_spec dict_keys]. rewrite map_map. reflexivity.
    + apply to_strings_spec_only_strings. assumption.
  - intros d Hd Hk. apply (proj2 (dict_values_to_strings_total d Hd)). exact Hk.
Qed.

Lemma C7_dict_values_to_strings_witness :
  let d := PDict [(PStr "a", PInt 1); (PStr "b", PDict [(PStr "c", PNone)])] in
  let e := PDict [(PStr "a", PInt 1); (PStr "b", PDict [(PInt 2, PNone)])] in
  (is_dict d = true /\ all_keys_str d = true /\ dict_wf d = true /\
   dict_values_to_strings d = Ok (to_strings_spec d)) /\
  (is_dict e = true /\ all_keys_str e = false /\
   dict_values_to_strings e = Exc TypeError).
Proof.
  intros d e.
  assert (Hd1 : is_dict d = true) by reflexivity.
  assert (Hd2 : all_keys_str d = true) by reflexivity.
  assert (Hd3 : dict_wf d = true) by reflexivity.
  assert (He1 : is_dict e = true) by reflexivity.
  assert (He2 : all_keys_str e = false) by reflexivity.
  split.
  - split; [exact Hd1|]. split; [exact Hd2|]. split; [exact Hd3|].
    exact (proj1 (proj1 C7_dict_values_to_strings d Hd1 Hd2 Hd3)).
  - split; [exact He1|]. split; [exact He2|].
    exact (proj2 C7_dict_values_to_strings e He1 He2).
Defined.

(** * Further properties of the code *)

(** ** Level names *)

(** [str_to_log_level] recognises each filterable level name in any
    letter case. *)
Theorem str_to_log_level_names s level name :
  In (level, name) SYSLOG_LEVELS -> lower s = lower name ->
  str_to_log_level s = level.
Proof.
  intros Hin Hs. unfold str_to_log_level. rewrite Hs.
  cbn in Hin. destruct Hin as [H | [H | [H | [H | []]]]]; injection H as <- <-;
    reflexivity.
Qed.

Lemma str_to_log_level_names_witness :
  In (LOG_WARN, "WARNING") SYSLOG_LEVELS /\ lower "Warning" = lower "WARNING" /\
  str_to_log_level "Warning" = LOG_WARN.
Proof.
  assert (H1 : In (LOG_WARN, "WARNING") SYSLOG_LEVELS) by (right; left; reflexivity).
  assert (H2 : lower "Warning" = lower "WARNING") by reflexivity.
  split; [exact H1|]. split; [exact H2|].
  exact (str_to_log_level_names "Warning" _ _ H1 H2).
Defined.




(** The level name shown for a filterable level maps back to that level. *)
Theorem log_level_str_roundtrip item :
  In (log_level item) SYSLOG_LEVEL_KEYS ->
  str_to_log_level (log_level_str item) = log_level item.
Proof.
  destruct item as [l ts m]. cbn [log_level]. intros Hin.
  cbn in Hin. destruct Hin as [<- | [<- | [<- | [<- | []]]]]; reflexivity.
Qed.

Lemma log_level_str_roundtrip_witness :
  In (log_level (new_LogItem "t" "m" LOG_DEBUG)) SYSLOG_LEVEL_KEYS /\
  str_to_log_level (log_level_str (new_LogItem "t" "m" LOG_DEBUG)) = LOG_DEBUG.
Proof.
  assert (H : In (log_level (new_LogItem "t" "m" LOG_DEBUG)) SYSLOG_LEVEL_KEYS)
    by (cbn; right; right; right; left; reflexivity).
  split; [exact H|]. exact (log_level_str_roundtrip _ H).
Defined.

(** ** OutputList: what each operation changes *)

Lemma in_removelast {A} (x : A) l : In x (removelast l) -> In x l.
Proof.
  induction l as [| a l IH]; [easy|].
  destruct l as [| b l]; [easy|].
  intros [-> | H]; [left; reflexivity | right; apply IH; exact H].
Qed.

Lemma append_truncate_Forall (P : LogItem -> Prop) mx b x b' :
  append_truncate mx b x = Ok b' -> P x -> Forall P b -> Forall P b'.
Proof.
  unfold append_truncate. intros H Px Pb. destruct mx as [m |]; [|discriminate].
  destruct (m <? _).
  - destruct (_ =? 1); [|discriminate].
    destruct b as [| y r]; [discriminate|]. cbn in H. injection H as <-.
    constructor; [exact Px|]. eapply incl_Forall; [|exact Pb].
    intros z Hz. apply in_removelast. exact Hz.
  - injection H as <-. constructor; assumption.
Qed.

(** The effect of [insert_item]: the configuration and the log file are
    kept; while paused only the paused buffer changes, otherwise the live
    buffer and (for an entry that passes the filter) the filtered view. *)
Lemma insert_item_cases st log st' :
  insert_item st log = Ok st' ->
  log_level_filter st' = log_level_filter st /\ max_len st' = max_len st /\
  paused st' = paused st /\ tfile st' = tfile st /\ logfile st' = logfile st /\
  (if paused st then
     unfiltered_list st' = unfiltered_list st /\
     filtered_list st' = filtered_list st /\
     append_truncate (max_len st) (_paused_buffer st) log = Ok (_paused_buffer st')
   else
     _paused_buffer st' = _paused_buffer st /\
     append_truncate (max_len st) (unfiltered_list st) log = Ok (unfiltered_list st') /\
     (if matches_log_level_filter log (log_level_filter st)
      then append_truncate (max_len st) (filtered_list st) log = Ok (filtered_list st')
      else filtered_list st' = filtered_list st)).
Proof.
  unfold insert_item. destruct (paused st) eqn:Hp.
  - destruct (append_truncate _ _ _) as [pb |] eqn:E; [|discriminate].
    intros H. injection H as <-. cbn. rewrite Hp. repeat split; assumption.
  - destruct (append_truncate _ (unfiltered_list st) _) as [u |] eqn:E; [|discriminate].
    cbn [bind set_unfiltered log_level_filter max_len filtered_list].
    destruct (matches_log_level_filter _ _).
    + destruct (append_truncate _ (filtered_list st) _) as [f |] eqn:F; [|discriminate].
      intros H. injection H as <-. cbn. rewrite Hp. repeat split; assumption.
    + intros H. injection H as <-. cbn. rewrite Hp. repeat split; assumption.
Qed.

(** [write] is [insert_item] followed, when the log file is on, by one
    log line. *)
Lemma write_cases now st s st' :
  write now st s = Ok st' ->
  (nonblank s = false /\ st' = st) \/
  (nonblank s = true /\ exists st1,
     insert_item st (new_LogItem now s CONSOLE_LOG_LEVEL) = Ok st1 /\
     st' = if tfile st1
           then log_line st1 (print_to_log (new_LogItem now s CONSOLE_LOG_LEVEL))
           else st1).
Proof.
  unfold write. destruct (nonblank s) eqn:Hs.
  - destruct (insert_item _ _) as [st1 |] eqn:E; [|discriminate].
    cbn [bind]. intros H. right. split; [reflexivity|]. exists st1. split; [reflexivity|].
    destruct (tfile st1); injection H as <-; reflexivity.
  - intros H. injection H as <-. left. split; reflexivity.
Qed.

(** Properties kept by every reachable state, whatever [max_len]. *)
Definition good (st : OutputList) : Prop :=
  Forall (fun e => matches_log_level_filter e (log_level_filter st) = true)
    (filtered_list st) /\
  (paused st = false -> _paused_buffer st = []) /\
  Forall (fun e => nonblank (msg e) = true) (unfiltered_list st) /\
  Forall (fun e => nonblank (msg e) = true) (_paused_buffer st) /\
  Forall (fun e => nonblank (msg e) = true) (filtered_list st).

Lemma insert_item_good st log st' :
  good st -> nonblank (msg log) = true -> insert_item st log = Ok st' -> good st'.
Proof.
  intros (Hf & Hpb & Hu & Hp & Hfn) Hlog Hi.
  destruct (insert_item_cases st log st' Hi)
    as (Hlf & _ & Hpa & _ & _ & Hcase).
  unfold good. rewrite Hlf, Hpa. destruct (paused st).
  - destruct Hcase as (-> & -> & Hpb').
    repeat split; try assumption.
    + discriminate.
    + eapply append_truncate_Forall; eassumption.
  - destruct Hcase as (-> & Hu' & Hf').
    destruct (matches_log_level_filter log (log_level_filter st)) eqn:Hm.
    + repeat split; try assumption.
      * eapply append_truncate_Forall; eassumption.
      * eapply append_truncate_Forall; eassumption.
      * eapply append_truncate_Forall; eassumption.
    + rewrite Hf'. repeat split; try assumption.
      eapply append_truncate_Forall; eassumption.
Qed.

Lemma Forall_filter_matches t l :
  Forall (fun e => matches_log_level_filter e t = true)
    (filter (fun e => matches_log_level_filter e t) l).
Proof.
  apply Forall_forall. intros x Hx. apply filter_In in Hx. apply Hx.
Qed.

Lemma Forall_filter_keep (P : LogItem -> Prop) f l :
  Forall P l -> Forall P (filter f l).
Proof.
  intros H. apply Forall_forall. intros x Hx. apply filter_In in Hx as [Hx _].
  eapply Forall_forall in H; eassumption.
Qed.

Lemma reachable_good m st : reachable m st -> good st.
Proof.
  intros Hr. induction Hr as [tf | st now s st' _ IH Hw | st now s level st' _ IH Hw
                             | st _ IH | st t st' _ IH Ht | st b _ IH].
  - repeat split; constructor.
  - destruct (write_cases now st s st' Hw) as [[_ ->] | [Hs (st1 & Hi & ->)]];
      [exact IH|].
    pose proof (insert_item_good st (new_LogItem now s CONSOLE_LOG_LEVEL) st1 IH Hs Hi) as G.
    destruct (tfile st1); exact G.
  - unfold write_level in Hw. destruct (nonblank s) eqn:Hs.
    + exact (insert_item_good st (new_LogItem now s level) st' IH Hs Hw).
    + injection Hw as <-. exact IH.
  - repeat split; constructor.
  - unfold set_log_level_filter in Ht.
    destruct (existsb _ _); [|discriminate].
    destruct (t =? log_level_filter st); injection Ht as <-; [exact IH|].
    destruct IH as (_ & Hpb & Hu & Hp & _).
    repeat split; cbn; try assumption.
    + apply Forall_filter_matches.
    + apply Forall_filter_keep. exact Hu.
  - unfold set_paused. destruct (Bool.eqb b (paused st)) eqn:Hb; [exact IH|].
    destruct IH as (Hf & Hpb & Hu & Hp & Hfn).
    unfold _paused_changed. destruct b; cbn.
    + repeat split; try assumption. discriminate.
    + repeat split; try assumption; try constructor.
      * apply Forall_filter_matches.
      * apply Forall_filter_keep. exact Hp.
Qed.

(** ** OutputList: invariants and composition *)

(** In every reachable state the filtered view holds only entries whose
    level passes the current threshold. *)
Theorem filtered_view_passes_threshold m st :
  reachable m st ->
  Forall (fun e => (log_level e <=? log_level_filter st)%Z = true) (filtered_list st).
Proof. intros Hr. apply (reachable_good m st Hr). Qed.

(** After three entries and a change of threshold to INFO. *)
Lemma filtered_view_passes_threshold_witness :
  let st := ok_or (write_levels (init_OutputList 250 false)
              [("t1", "boot", LOG_INFO); ("t2", "   ", LOG_ERROR);
               ("t3", "no fix", LOG_ERROR); ("t4", "tick", LOG_DEBUG)])
              (init_OutputList 250 false) in
  let st' := ok_or (set_log_level_filter st LOG_INFO) st in
  reachable 250 st' /\
  Forall (fun e => (log_level e <=? log_level_filter st')%Z = true) (filtered_list st') /\
  map msg (filtered_list st') = ["no fix"; "boot"].
Proof.
  intros st st'.
  assert (Hr : reachable 250 st).
  { apply (reachable_write_levels 250 (init_OutputList 250 false)
      [("t1", "boot", LOG_INFO); ("t2", "   ", LOG_ERROR);
       ("t3", "no fix", LOG_ERROR); ("t4", "tick", LOG_DEBUG)]);
      [constructor | reflexivity]. }
  assert (Hr' : reachable 250 st')
    by (apply (reach_filter 250 st LOG_INFO); [exact Hr | reflexivity]).
  split; [exact Hr'|]. split; [exact (filtered_view_passes_threshold 250 _ Hr')|].
  reflexivity.
Defined.

(** In every reachable state that is not paused, the paused buffer is
    empty. *)
Theorem paused_buffer_empty_unpaused m st :
  reachable m st -> paused st = false -> _paused_buffer st = [].
Proof. intros Hr. apply (reachable_good m st Hr). Qed.

(** A pause over three entries, a write while paused, and the resume:
    the paused buffer held four entries and is emptied. *)
Lemma paused_buffer_empty_unpaused_witness :
  let st := ok_or (write_levels (init_OutputList 250 false)
              [("t1", "boot", LOG_INFO); ("t2", "   ", LOG_ERROR);
               ("t3", "no fix", LOG_ERROR); ("t4", "tick", LOG_DEBUG)])
              (init_OutputList 250 false) in
  let sp := ok_or (write_levels (set_paused st true) [("t5", "held", LOG_ERROR)])
              (set_paused st true) in
  map msg (_paused_buffer sp) = ["held"; "tick"; "no fix"; "boot"] /\
  reachable 250 (set_paused sp false) /\
  paused (set_paused sp false) = false /\
  _paused_buffer (set_paused sp false) = [].
Proof.
  intros st sp.
  assert (Hr : reachable 250 st).
  { apply (reachable_write_levels 250 (init_OutputList 250 false)
      [("t1", "boot", LOG_INFO); ("t2", "   ", LOG_ERROR);
       ("t3", "no fix", LOG_ERROR); ("t4", "tick", LOG_DEBUG)]);
      [constructor | reflexivity]. }
  assert (Hrp : reachable 250 sp).
  { apply (reachable_write_levels 250 (set_paused st true) [("t5", "held", LOG_ERROR)]);
      [constructor; exact Hr | reflexivity]. }
  assert (Hru : reachable 250 (set_paused sp false)) by (constructor; exact Hrp).
  assert (Hp : paused (set_paused sp false) = false) by reflexivity.
  split; [reflexivity|]. split; [exact Hru|]. split; [exact Hp|].
  exact (paused_buffer_empty_unpaused 250 _ Hru Hp).
Defined.

(** No reachable state holds an entry with an empty or all-whitespace
    message, in any of the three buffers. *)
Theorem no_blank_entries m st :
  reachable m st ->
  Forall (fun e => nonblank (msg e) = true) (unfiltered_list st) /\
  Forall (fun e => nonblank (msg e) = true) (_paused_buffer st) /\
  Forall (fun e => nonblank (msg e) = true) (filtered_list st).
Proof. intros Hr. apply (reachable_good m st Hr). Qed.

(** Writes of "   " and "" among others, paused and not: no blank
    entry is stored. *)
Lemma no_blank_entries_witness :
  let st := ok_or (write_levels (init_OutputList 250 false)
              [("t1", "boot", LOG_INFO); ("t2", "   ", LOG_ERROR);
               ("t3", "no fix", LOG_ERROR); ("t4", "tick", LOG_DEBUG)])
              (init_OutputList 250 false) in
  let sp := ok_or (write_levels (set_paused st true)
                     [("t5", "held", LOG_ERROR); ("t6", "", LOG_ERROR)])
              (set_paused st true) in
  reachable 250 sp /\
  Forall (fun e => nonblank (msg e) = true) (unfiltered_list sp) /\
  Forall (fun e => nonblank (msg e) = true) (_paused_buffer sp) /\
  Forall (fun e => nonblank (msg e) = true) (filtered_list sp) /\
  map msg (_paused_buffer sp) = ["held"; "tick"; "no fix"; "boot"].
Proof.
  intros st sp.
  assert (Hr : reachable 250 st).
  { apply (reachable_write_levels 250 (init_OutputList 250 false)
      [("t1", "boot", LOG_INFO); ("t2", "   ", LOG_ERROR);
       ("t3", "no fix", LOG_ERROR); ("t4", "tick", LOG_DEBUG)]);
      [constructor | reflexivity]. }
  assert (Hrp : reachable 250 sp).
  { apply (reachable_write_levels 250 (set_paused st true)
             [("t5", "held", LOG_ERROR); ("t6", "", LOG_ERROR)]);
      [constructor; exact Hr | reflexivity]. }
  destruct (no_blank_entries 250 sp Hrp) as (H1 & H2 & H3).
  split; [exact Hrp|]. split; [exact H1|]. split; [exact H2|]. split; [exact H3|].
  reflexivity.
Defined.

(** While paused, [write] and [write_level] leave the live buffer and
    the filtered view untouched. *)
Theorem paused_writes_frame st :
  paused st = true ->
  (forall now s st', write now st s = Ok st' ->
     unfiltered_list st' = unfiltered_list st /\ filtered_list st' = filtered_list st) /\
  (forall now s level st', write_level now st s level = Ok st' ->
     unfiltered_list st' = unfiltered_list st /\ filtered_list st' = filtered_list st).
Proof.
  intros Hp. split.
  - intros now s st' Hw.
    destruct (write_cases now st s st' Hw) as [[_ ->] | [_ (st1 & Hi & ->)]];
      [split; reflexivity|].
    destruct (insert_item_cases _ _ _ Hi) as (_ & _ & _ & _ & _ & Hc).
    rewrite Hp in Hc. destruct Hc as (Hu & Hf & _).
    destruct (tfile st1); split; assumption.
  - intros now s level st' Hw. unfold write_level in Hw.
    destruct (nonblank s); [|injection Hw as <-; split; reflexivity].
    destruct (insert_item_cases _ _ _ Hw) as (_ & _ & _ & _ & _ & Hc).
    rewrite Hp in Hc. destruct Hc as (Hu & Hf & _). split; assumption.
Qed.

Lemma paused_writes_frame_witness :
  paused (set_paused (init_OutputList 250 false) true) = true /\
  (forall st', write "t" (set_paused (init_OutputList 250 false) true) "x" = Ok st' ->
     unfiltered_list st' = [] /\ filtered_list st' = []).
Proof.
  assert (H : paused (set_paused (init_OutputList 250 false) true) = true) by reflexivity.
  split; [exact H|].
  intros st' Hw. exact (proj1 (paused_writes_frame _ H) "t" "x" st' Hw).
Defined.

(** Pausing and resuming with no write in between keeps the live
    buffer, empties the paused buffer and rebuilds the filtered view. *)
Theorem pause_resume_keeps_live st :
  paused st = false ->
  unfiltered_list (set_paused (set_paused st true) false) = unfiltered_list st /\
  _paused_buffer (set_paused (set_paused st true) false) = [] /\
  filtered_list (set_paused (set_paused st true) false) =
    filter (fun e => matches_log_level_filter e (log_level_filter st))
      (unfiltered_list st).
Proof.
  intros Hp. unfold set_paused, _paused_changed, _log_level_filter_changed.
  rewrite Hp. cbn. repeat split; reflexivity.
Qed.

(** Pause and resume over three entries, with the threshold at
    DEBUG: all three are back in the filtered view. *)
Lemma pause_resume_keeps_live_witness :
  let st := ok_or (write_levels (init_OutputList 250 false)
              [("t1", "boot", LOG_INFO); ("t2", "   ", LOG_ERROR);
               ("t3", "no fix", LOG_ERROR); ("t4", "tick", LOG_DEBUG)])
              (init_OutputList 250 false) in
  let st' := ok_or (set_log_level_filter st LOG_DEBUG) st in
  paused st' = false /\
  map msg (unfiltered_list (set_paused (set_paused st' true) false)) =
    ["tick"; "no fix"; "boot"] /\
  unfiltered_list (set_paused (set_paused st' true) false) = unfiltered_list st' /\
  _paused_buffer (set_paused (set_paused st' true) false) = [] /\
  map msg (filtered_list (set_paused (set_paused st' true) false)) =
    ["tick"; "no fix"; "boot"].
Proof.
  intros st st'.
  assert (H : paused st' = false) by reflexivity.
  destruct (pause_resume_keeps_live st' H) as (Hu & Hp & Hf).
  split; [exact H|]. split; [reflexivity|]. split; [exact Hu|]. split; [exact Hp|].
  rewrite Hf. reflexivity.
Defined.

(** With [max_len = None] (allowed by the trait) every non-blank write
    raises [TypeError]. *)
Theorem max_len_None_writes_raise now st s level :
  max_len st = None -> nonblank s = true ->
  write now st s = Exc TypeError /\ write_level now st s level = Exc TypeError.
Proof.
  intros Hm Hs. unfold write, write_level, insert_item. rewrite Hs, Hm.
  destruct (paused st); split; reflexivity.
Qed.

Lemma max_len_None_writes_raise_witness :
  max_len (mkOutputList [] [] [] LOG_ERROR None false false []) = None /\
  nonblank "x" = true /\
  write "t" (mkOutputList [] [] [] LOG_ERROR None false false []) "x" = Exc TypeError.
Proof.
  assert (H1 : max_len (mkOutputList [] [] [] LOG_ERROR None false false []) = None)
    by reflexivity.
  assert (H2 : nonblank "x" = true) by reflexivity.
  split; [exact H1|]. split; [exact H2|].
  exact (proj1 (max_len_None_writes_raise "t" _ "x" LOG_ERROR H1 H2)).
Defined.

(** [write_level] never writes to the log file, and [write] does not
    either when the log file is off. *)
Theorem logfile_only_from_write now st s level st' :
  (write_level now st s level = Ok st' -> logfile st' = logfile st) /\
  (tfile st = false -> write now st s = Ok st' -> logfile st' = logfile st).
Proof.
  split.
  - intros Hw. unfold write_level in Hw.
    destruct (nonblank s); [|injection Hw as <-; reflexivity].
    apply (insert_item_cases _ _ _ Hw).
  - intros Htf Hw.
    destruct (write_cases now st s st' Hw) as [[_ ->] | [_ (st1 & Hi & ->)]];
      [reflexivity|].
    destruct (insert_item_cases _ _ _ Hi) as (_ & _ & _ & Htf1 & Hlf & _).
    rewrite Htf1, Htf. exact Hlf.
Qed.

Lemma logfile_only_from_write_witness :
  tfile (init_OutputList 250 false) = false /\
  write "t" (init_OutputList 250 false) "x" =
    Ok (set_filtered (set_unfiltered (init_OutputList 250 false)
          [new_LogItem "t" "x" CONSOLE_LOG_LEVEL])
          [new_LogItem "t" "x" CONSOLE_LOG_LEVEL]) /\
  logfile (set_filtered (set_unfiltered (init_OutputList 250 false)
          [new_LogItem "t" "x" CONSOLE_LOG_LEVEL])
          [new_LogItem "t" "x" CONSOLE_LOG_LEVEL]) = [].
Proof.
  assert (H1 : tfile (init_OutputList 250 false) = false) by reflexivity.
  assert (H2 : write "t" (init_OutputList 250 false) "x" =
    Ok (set_filtered (set_unfiltered (init_OutputList 250 false)
          [new_LogItem "t" "x" CONSOLE_LOG_LEVEL])
          [new_LogItem "t" "x" CONSOLE_LOG_LEVEL])) by reflexivity.
  split; [exact H1|]. split; [exact H2|].
  exact (proj2 (logfile_only_from_write "t" _ "x" LOG_ERROR _) H1 H2).
Defined.

(** Only the keys of [SYSLOG_LEVELS] are accepted as threshold (others
    raise [TraitError]); an accepted change keeps the live buffer, the
    paused buffer, the pause flag and the log file. *)
Theorem set_log_level_filter_effect st t :
  (~ In t SYSLOG_LEVEL_KEYS -> set_log_level_filter st t = Exc TraitError) /\
  (forall st', set_log_level_filter st t = Ok st' ->
     unfiltered_list st' = unfiltered_list st /\
     _paused_buffer st' = _paused_buffer st /\
     paused st' = paused st /\ logfile st' = logfile st).
Proof.
  unfold set_log_level_filter. split.
  - intros Hnot. destruct (existsb (Z.eqb t) SYSLOG_LEVEL_KEYS) eqn:E; [|reflexivity].
    apply existsb_exists in E as (t' & Hin & Heq). apply Z.eqb_eq in Heq. subst t'.
    contradiction.
  - intros st'. destruct (existsb _ _); [|discriminate].
    destruct (t =? log_level_filter st); intros H; injection H as <-;
      repeat split; reflexivity.
Qed.

(** A refused value (EMERG, commented out of [SYSLOG_LEVELS]) and an
    accepted change to DEBUG over a paused list with entries in both
    buffers. *)
Lemma set_log_level_filter_effect_witness :
  let st := ok_or (write_levels (init_OutputList 250 false)
              [("t1", "boot", LOG_INFO); ("t2", "   ", LOG_ERROR);
               ("t3", "no fix", LOG_ERROR); ("t4", "tick", LOG_DEBUG)])
              (init_OutputList 250 false) in
  let sp := ok_or (write_levels (set_paused st true) [("t5", "held", LOG_ERROR)])
              (set_paused st true) in
  let sd := ok_or (set_log_level_filter sp LOG_DEBUG) sp in
  ~ In LOG_EMERG SYSLOG_LEVEL_KEYS /\
  set_log_level_filter sp LOG_EMERG = Exc TraitError /\
  set_log_level_filter sp LOG_DEBUG = Ok sd /\
  log_level_filter sd = LOG_DEBUG /\
  map msg (unfiltered_list sd) = ["tick"; "no fix"; "boot"] /\
  map msg (_paused_buffer sd) = ["held"; "tick"; "no fix"; "boot"] /\
  unfiltered_list sd = unfiltered_list sp /\ _paused_buffer sd = _paused_buffer sp /\
  paused sd = paused sp /\ logfile sd = logfile sp.
Proof.
  intros st sp sd.
  assert (H : ~ In LOG_EMERG SYSLOG_LEVEL_KEYS).
  { cbn. intros [H | [H | [H | [H | []]]]]; discriminate H. }
  assert (Hok : set_log_level_filter sp LOG_DEBUG = Ok sd) by reflexivity.
  destruct (set_log_level_filter_effect sp LOG_EMERG) as [He _].
  destruct (set_log_level_filter_effect sp LOG_DEBUG) as [_ Hf].
  destruct (Hf sd Hok) as (Hu & Hp & Hpf & Hl).
  split; [exact H|]. split; [exact (He H)|]. split; [exact Hok|].
  split; [reflexivity|]. split; [reflexivity|]. split; [reflexivity|].
  split; [exact Hu|]. split; [exact Hp|]. split; [exact Hpf | exact Hl].
Defined.

Lemma firstn_app_cons_firstn {A} n (l m : list A) x :
  firstn (S n) (l ++ x :: firstn n m) = firstn (S n) (l ++ x :: m).
Proof. exact (firstn_app_firstn (S n) l (x :: m)). Qed.

Lemma write_levels_unpaused_inv m st calls :
  0 <= m -> inv m st -> paused st = false ->
  forallb (fun '(_, s, _) => nonblank s) calls = true ->
  exists st', write_levels st calls = Ok st' /\
  unfiltered_list st' =
    firstn (S (Z.to_nat m))
      (rev (map (fun '(now, s, l) => new_LogItem now s l) calls) ++ unfiltered_list st) /\
  filtered_list st' =
    firstn (S (Z.to_nat m))
      (rev (filter (fun e => matches_log_level_filter e (log_level_filter st))
              (map (fun '(now, s, l) => new_LogItem now s l) calls))
       ++ filtered_list st) /\
  _paused_buffer st' = _paused_buffer st /\
  paused st' = false /\
  log_level_filter st' = log_level_filter st /\
  logfile st' = logfile st.
Proof.
  intros Hm. revert st. induction calls as [| [[now s] l] rest IH];
    intros st Hinv Hp Hnb.
  - exists st. cbn [write_levels map rev filter app].
    destruct Hinv as (_ & Hu & _ & Hf & _). unfold len_ok in Hu, Hf.
    rewrite !firstn_all2 by lia. repeat split; auto.
  - cbn [forallb] in Hnb. apply andb_prop in Hnb as [Hs Hnb].
    destruct (insert_item_inv m st (new_LogItem now s l) Hm Hinv) as (st1 & Hi & Hinv1).
    pose proof (insert_item_eq m st (new_LogItem now s l) Hm Hinv) as He.
    rewrite Hi, Hp in He. injection He as He.
    assert (Hp1 : paused st1 = false)
      by (subst st1; destruct (matches_log_level_filter _ _); exact Hp).
    destruct (IH st1 Hinv1 Hp1 Hnb) as (st' & Hw & Hu & Hf & Hpb & Hp' & Ht & Hl).
    exists st'. cbn [write_levels]. unfold write_level. rewrite Hs, Hi. cbn [bind].
    split; [exact Hw|].
    cbn [map rev filter]. rewrite Hu, Hf, Hpb, Ht, Hl. subst st1.
    destruct (matches_log_level_filter (new_LogItem now s l) (log_level_filter st));
      cbn [rev set_filtered set_unfiltered unfiltered_list filtered_list
           _paused_buffer log_level_filter logfile];
      rewrite <- ?app_assoc; cbn [app]; rewrite ?firstn_app_cons_firstn;
      repeat split; first [reflexivity | assumption].
Qed.

(** Unpaused, a run of non-blank [write_level] calls from a reachable
    state puts the new items, newest first, in front of the live buffer,
    and those passing the threshold in front of the filtered view, both
    cut to [max_len + 1] items; it raises nothing and changes neither the
    paused buffer, the pause flag, the threshold nor the log file. *)
Theorem write_levels_unpaused m st calls :
  0 <= m -> reachable m st -> paused st = false ->
  forallb (fun '(_, s, _) => nonblank s) calls = true ->
  exists st', write_levels st calls = Ok st' /\
  unfiltered_list st' =
    firstn (S (Z.to_nat m))
      (rev (map (fun '(now, s, l) => new_LogItem now s l) calls) ++ unfiltered_list st) /\
  filtered_list st' =
    firstn (S (Z.to_nat m))
      (rev (filter (fun e => matches_log_level_filter e (log_level_filter st))
              (map (fun '(now, s, l) => new_LogItem now s l) calls))
       ++ filtered_list st) /\
  _paused_buffer st' = _paused_buffer st /\
  paused st' = false /\
  log_level_filter st' = log_level_filter st /\
  logfile st' = logfile st.
Proof.
  intros Hm Hr. apply write_levels_unpaused_inv; [exact Hm|].
  apply reachable_inv; assumption.
Qed.

Lemma write_levels_unpaused_witness :
  exists st', write_levels (init_OutputList 1 false)
                [("t1", "a", LOG_ERROR); ("t2", "b", LOG_DEBUG); ("t3", "c", LOG_ERROR)]
              = Ok st' /\
  unfiltered_list st' = [new_LogItem "t3" "c" LOG_ERROR; new_LogItem "t2" "b" LOG_DEBUG] /\
  filtered_list st' = [new_LogItem "t3" "c" LOG_ERROR; new_LogItem "t1" "a" LOG_ERROR].
Proof.
  assert (Hm : 0 <= 1) by lia.
  assert (Hr : reachable 1 (init_OutputList 1 false)) by constructor.
  assert (Hp : paused (init_OutputList 1 false) = false) by reflexivity.
  assert (Hnb : forallb (fun '(_, s, _) => nonblank s)
                  [("t1", "a", LOG_ERROR); ("t2", "b", LOG_DEBUG); ("t3", "c", LOG_ERROR)]
                = true) by reflexivity.
  destruct (write_levels_unpaused 1 _ _ Hm Hr Hp Hnb) as (st' & Hw & Hu & Hf & _).
  exists st'. split; [exact Hw|]. split.
  - rewrite Hu. reflexivity.
  - rewrite Hf. reflexivity.
Defined.

(** ** SettingsReport: traces and conversion *)

Lemma post_data_posts net uuid data :
  (List.length (posts (fst (post_data net uuid data))) <= 1)%nat.
Proof.
  unfold post_data. destruct (is_str uuid), (is_dict data); cbn [negb];
    try (cbn; lia).
  destruct (json_dumps_check (PList [uuid; data])); [|cbn; lia].
  destruct net as [code |]; cbn; [destruct (code =? 200)|]; cbn; lia.
Qed.

Lemma posts_app a b : posts (app a b) = app (posts a) (posts b).
Proof. unfold posts. apply filter_app. Qed.

(** [report_settings] makes at most one HTTP request, whatever the
    settings and whatever the request does. *)
Theorem report_settings_at_most_one_post net settings :
  (List.length (posts (fst (report_settings net settings))) <= 1)%nat.
Proof.
  unfold report_settings, report_body.
  destruct (si <- getitem settings "system_info" ;; getitem si "uuid") as [u | e];
    [|cbn; lia].
  destruct (dict_values_to_strings settings) as [data | e]; [|cbn; lia].
  pose proof (post_data_posts net (PStr (py_str u)) data) as H.
  destruct (post_data net (PStr (py_str u)) data) as [tr [[] | e]];
    cbn [fst snd] in *;
    change (Print "reporting settings" :: ?l) with (app [Print "reporting settings"] l);
    rewrite ?posts_app; cbn [posts filter app]; rewrite ?app_nil_r;
    try exact H; rewrite length_app; cbn; lia.
Qed.

Lemma is_dict_to_strings_spec v : is_dict v = true -> is_dict (to_strings_spec v) = true.
Proof. destruct v; cbn; congruence. Qed.

(** With the uuid found, every key a string and a body [json.dumps]
    can encode, [report_settings] posts the uuid's [str] with the
    converted settings exactly once; it then prints "reported settings"
    whatever the status code (a non-200 status only adds "post data:
    failed to post data"), and only a raising request leads to the
    failure message. *)
Theorem report_settings_success settings u :
  (si <- getitem settings "system_info" ;; getitem si "uuid") = Ok u ->
  all_keys_str settings = true -> dict_wf settings = true ->
  json_dumps_check (PList [PStr (py_str u); to_strings_spec settings]) = Ok tt ->
  (forall code,
     fst (report_settings (Responds code) settings) =
     Print "reporting settings" ::
       Post REPORT_URL (PList [PStr (py_str u); to_strings_spec settings]) ::
       app (if code =? 200 then [] else [Print "post data: failed to post data"])
         [Print "reported settings"]) /\
  fst (report_settings Raises settings) =
    [Print "reporting settings";
     Post REPORT_URL (PList [PStr (py_str u); to_strings_spec settings]);
     Print "report settings: failed to report settings"].
Proof.
  intros Hu Hk Hwf Hj.
  assert (Hd : is_dict settings = true).
  { destruct settings; try discriminate. reflexivity. }
  assert (Hc : dict_values_to_strings settings = Ok (to_strings_spec settings))
    by (apply dict_values_to_strings_spec; assumption).
  unfold report_settings, report_body. rewrite Hu, Hc.
  unfold post_data. rewrite (is_dict_to_strings_spec _ Hd). cbn [is_str negb].
  rewrite Hj.
  split; [intros code; destruct (code =? 200)|]; reflexivity.
Qed.

Lemma report_settings_success_witness :
  let s := PDict [(PStr "system_info", PDict [(PStr "uuid", PLong 7)]);
                  (PStr "ports", PList [PStr "it's"; PInt 2])] in
  fst (report_settings (Responds 500) s) =
    [Print "reporting settings";
     Post REPORT_URL (PList [PStr "7";
       PDict [(PStr "system_info", PDict [(PStr "uuid", PStr "7")]);
              (PStr "ports", PStr (String "[" (String dquote
                 ("it's" ++ String dquote ", 2]"))))]]);
     Print "post data: failed to post data";
     Print "reported settings"].
Proof.
  intros s.
  assert (Hu : (si <- getitem s "system_info" ;; getitem si "uuid") = Ok (PLong 7))
    by reflexivity.
  assert (Hk : all_keys_str s = true) by reflexivity.
  assert (Hwf : dict_wf s = true) by reflexivity.
  assert (Hj : json_dumps_check (PList [PStr (py_str (PLong 7)); to_strings_spec s])
               = Ok tt) by reflexivity.
  rewrite (proj1 (report_settings_success s (PLong 7) Hu Hk Hwf Hj) 500).
  reflexivity.
Defined.

Lemma convert_items_is_dict kvs acc d :
  convert_items dict_values_to_strings kvs acc = Ok d -> is_dict d = true.
Proof.
  revert acc. induction kvs as [| [k v] r IH]; intros acc Hc; cbn [convert_items] in Hc.
  - injection Hc as <-. reflexivity.
  - destruct k; try discriminate.
    destruct v; try (eapply IH; exact Hc).
    destruct (dict_values_to_strings _); [|discriminate]. cbn [bind] in Hc.
    eapply IH; exact Hc.
Qed.

(** When [json.dumps] cannot encode the body (a byte string that is
    not valid UTF-8, in the uuid or in the converted settings), no
    request is made and the report only prints its two messages. *)
Theorem report_settings_unencodable net settings u data e :
  (si <- getitem settings "system_info" ;; getitem si "uuid") = Ok u ->
  dict_values_to_strings settings = Ok data ->
  json_dumps_check (PList [PStr (py_str u); data]) = Exc e ->
  report_settings net settings =
  ([Print "reporting settings"; Print "report settings: failed to report settings"], Ok tt).
Proof.
  intros Hu Hc Hj.
  assert (Hd : is_dict data = true).
  { destruct settings as [| | | | | | kvs]; try discriminate.
    exact (convert_items_is_dict kvs [] data Hc). }
  unfold report_settings, report_body. rewrite Hu, Hc.
  unfold post_data. rewrite Hd. cbn [is_str negb]. rewrite Hj. reflexivity.
Qed.

Lemma report_settings_unencodable_witness :
  let s := PDict [(PStr "system_info", PDict [(PStr "uuid", PStr "u1")]);
                  (PStr "name", PStr (String (ascii_of_nat 255) ""))] in
  report_settings (Responds 200) s =
  ([Print "reporting settings"; Print "report settings: failed to report settings"], Ok tt).
Proof.
  intros s.
  apply (report_settings_unencodable (Responds 200) s (PStr "u1")
           (to_strings_spec s) UnicodeDecodeError); reflexivity.
Defined.

(** If [settings['system_info']['uuid']] cannot be looked up, the
    report only prints its two messages and sends nothing. *)
Theorem report_settings_lookup_fails net settings e :
  (si <- getitem settings "system_info" ;; getitem si "uuid") = Exc e ->
  report_settings net settings =
  ([Print "reporting settings"; Print "report settings: failed to report settings"], Ok tt).
Proof. intros H. unfold report_settings, report_body. rewrite H. reflexivity. Qed.

Lemma report_settings_lookup_fails_witness :
  report_settings Raises (PDict [(PStr "system_info", PDict [])]) =
  ([Print "reporting settings"; Print "report settings: failed to report settings"], Ok tt).
Proof.
  apply (report_settings_lookup_fails Raises _ KeyError). reflexivity.
Defined.

(** A key that is not a string, at any depth, makes the conversion
    raise before any request: the report only prints its two
    messages. *)
Theorem report_settings_bad_key net settings u :
  (si <- getitem settings "system_info" ;; getitem si "uuid") = Ok u ->
  all_keys_str settings = false ->
  report_settings net settings =
  ([Print "reporting settings"; Print "report settings: failed to report settings"], Ok tt).
Proof.
  intros Hu Hk.
  assert (Hd : is_dict settings = true).
  { destruct settings; try discriminate. reflexivity. }
  unfold report_settings, report_body. rewrite Hu.
  rewrite (proj2 (dict_values_to_strings_total settings Hd) Hk). reflexivity.
Qed.

Lemma report_settings_bad_key_witness :
  let s := PDict [(PStr "system_info", PDict [(PStr "uuid", PStr "u1")]);
                  (PStr "n", PDict [(PInt 3, PNone)])] in
  report_settings (Responds 200) s =
  ([Print "reporting settings"; Print "report settings: failed to report settings"], Ok tt).
Proof.
  intros s. apply (report_settings_bad_key (Responds 200) s (PStr "u1"));
    reflexivity.
Defined.

(** [post_data] with a string uuid and a dict payload first encodes
    [(uuid, data)]: if [json.dumps] raises, that exception propagates
    and no request is made; otherwise it sends exactly one request,
    with body [(uuid, data)], raises exactly when the request raises,
    and prints its failure message exactly when the status is not 200. *)
Theorem post_data_sends net uuid data :
  is_str uuid = true -> is_dict data = true ->
  (forall e, json_dumps_check (PList [uuid; data]) = Exc e ->
     post_data net uuid data = ([], Exc e)) /\
  (json_dumps_check (PList [uuid; data]) = Ok tt ->
   posts (fst (post_data net uuid data)) = [Post REPORT_URL (PList [uuid; data])] /\
   (snd (post_data net uuid data) = Exc ConnectionError <-> net = Raises) /\
   (In (Print "post data: failed to post data") (fst (post_data net uuid data)) <->
    exists code, net = Responds code /\ code <> 200)).
Proof.
  intros Hs Hd. unfold post_data. rewrite Hs, Hd. cbn [negb].
  split; [intros e He; rewrite He; reflexivity|].
  intros Hj. rewrite Hj.
  destruct net as [code |].
  - destruct (Z.eqb_spec code 200) as [-> | Hne]; cbn.
    + split; [reflexivity|]. split; [split; discriminate|].
      split; [intros [H | []]; discriminate|].
      intros (c & Hc & Hne). injection Hc as <-. contradiction.
    + split; [reflexivity|]. split; [split; discriminate|].
      split; [intros _; exists code; split; [reflexivity | exact Hne]|].
      intros _. right. left. reflexivity.
  - cbn. split; [reflexivity|]. split; [split; reflexivity|].
    split; [intros [H | []]; discriminate|]. intros (c & Hc & _). discriminate.
Qed.

Lemma post_data_sends_witness :
  posts (fst (post_data (Responds 404) (PStr "u") (PDict [(PStr "k", PStr "v")]))) =
    [Post REPORT_URL (PList [PStr "u"; PDict [(PStr "k", PStr "v")]])] /\
  In (Print "post data: failed to post data")
    (fst (post_data (Responds 404) (PStr "u") (PDict [(PStr "k", PStr "v")]))) /\
  post_data (Responds 200) (PStr "u") (PDict [(PStr "k", PStr (String (ascii_of_nat 255) ""))])
    = ([], Exc UnicodeDecodeError).
Proof.
  assert (Hs : is_str (PStr "u") = true) by reflexivity.
  assert (Hd : is_dict (PDict [(PStr "k", PStr "v")]) = true) by reflexivity.
  assert (Hj : json_dumps_check (PList [PStr "u"; PDict [(PStr "k", PStr "v")]]) = Ok tt)
    by reflexivity.
  destruct (proj2 (post_data_sends (Responds 404) _ _ Hs Hd) Hj) as (Hp & _ & Hf).
  split; [exact Hp|]. split.
  - apply Hf. exists 404. split; [reflexivity | discriminate].
  - assert (Hd' : is_dict (PDict [(PStr "k", PStr (String (ascii_of_nat 255) ""))]) = true)
      by reflexivity.
    apply (proj1 (post_data_sends (Responds 200) _ _ Hs Hd')). reflexivity.
Defined.

Lemma key_names_map_snd f kvs :
  key_names (map (fun kv => (fst kv, f (snd kv))) kvs) = key_names kvs.
Proof.
  unfold key_names. induction kvs as [| [k v] r IH]; [reflexivity|].
  cbn [map flat_map fst]. rewrite IH. reflexivity.
Qed.

Lemma to_strings_spec_idem v :
  to_strings_spec (to_strings_spec v) = to_strings_spec v.
Proof.
  induction v as [| | | | | l _ | kvs IH] using pyval_ind_deep; try reflexivity.
  cbn [to_strings_spec]. rewrite map_map. f_equal.
  apply map_ext_in. intros [k v] Hin. cbn [fst snd].
  rewrite Forall_forall in IH. exact (f_equal (pair k) (IH (k, v) Hin)).
Qed.

Lemma to_strings_spec_keys_wf v :
  all_keys_str v = true -> dict_wf v = true ->
  all_keys_str (to_strings_spec v) = true /\ dict_wf (to_strings_spec v) = true.
Proof.
  induction v as [| | | | | l _ | kvs IH] using pyval_ind_deep; intros Hk Hwf;
    try (split; reflexivity).
  cbn [to_strings_spec all_keys_str dict_wf] in *.
  apply andb_prop in Hwf as [Hnd Hwf]. rewrite key_names_map_snd, Hnd. cbn [andb].
  clear Hnd. induction kvs as [| [k v] rest IHrest]; [split; reflexivity|].
  inversion IH as [| ? ? Hv Hrest]; subst.
  cbn [forallb map fst snd] in *. apply andb_prop in Hk as [Hkv Hk].
  apply andb_prop in Hkv as [Hks Hkv]. apply andb_prop in Hwf as [Hwv Hwf].
  destruct (Hv Hkv Hwv) as [H1 H2]. destruct (IHrest Hrest Hk Hwf) as [H3 H4].
  rewrite Hks, H1, H2, H3, H4. split; reflexivity.
Qed.

(** On a dict with string keys at every depth (distinct, as in any
    Python dict), converting the result of [dict_values_to_strings]
    again gives the same result. *)
Theorem dict_values_to_strings_idempotent d d' :
  is_dict d = true -> all_keys_str d = true -> dict_wf d = true ->
  dict_values_to_strings d = Ok d' -> dict_values_to_strings d' = Ok d'.
Proof.
  intros Hd Hk Hwf H.
  rewrite (dict_values_to_strings_spec d Hk Hwf Hd) in H. injection H as <-.
  destruct (to_strings_spec_keys_wf d Hk Hwf) as [Hk' Hwf'].
  rewrite (dict_values_to_strings_spec _ Hk' Hwf' (is_dict_to_strings_spec _ Hd)).
  rewrite to_strings_spec_idem. reflexivity.
Qed.

Lemma dict_values_to_strings_idempotent_witness :
  let d := PDict [(PStr "a", PInt 1); (PStr "b", PDict [(PStr "c", PBool true)])] in
  dict_values_to_strings d = Ok (to_strings_spec d) /\
  dict_values_to_strings (to_strings_spec d) = Ok (to_strings_spec d).
Proof.
  intros d.
  assert (Hd : is_dict d = true) by reflexivity.
  assert (Hk : all_keys_str d = true) by reflexivity.
  assert (Hwf : dict_wf d = true) by reflexivity.
  assert (H : dict_values_to_strings d = Ok (to_strings_spec d)) by reflexivity.
  split; [exact H|]. exact (dict_values_to_strings_idempotent d _ Hd Hk Hwf H).
Defined.
